(** * Snake BnB: the cage availability and booking core

    A shallow embedding of [data/bookings.py], [data/cages.py],
    [data/snakes.py], [data/owners.py] and of the matching functions of
    [services/data_service.py]: [get_available_cages], [book_cage],
    [add_available_date], together with [Booking.duration_in_days].

    Conventions of the embedding:
    - a naive [datetime] is a number of microseconds, counted from the first
      instant of the calendar; date arithmetic overflows outside years 1 to
      9999 as the interpreter's does; the millisecond resolution of stored
      dates is left out;
    - a [timedelta] is the normalised triple (days, seconds, microseconds)
      the interpreter keeps;
    - the float fields (price, square_meters, length) are rationals;
    - an ObjectId is a number, and a document that reaches these functions
      has one;
    - a function that reads or writes the database threads the database
      explicitly; a Python exception is an outcome of its own, and the state
      at the point where it is raised is kept;
    - [datetime.datetime.now()] is an argument [now] of [book_cage]. *)

From Stdlib Require Import ZArith QArith String Sorted.
From stdpp Require Import base option list.

Local Open Scope Z_scope.

(** ** datetime *)

Module datetime.

(** A naive [datetime.datetime]. *)
Definition datetime : Type := Z.

Definition us_per_second : Z := 1000000.
Definition seconds_per_day : Z := 86400.
Definition us_per_day : Z := seconds_per_day * us_per_second.

(** [datetime.timedelta]: the three normalised components, with
    [0 <= seconds < 86400] and [0 <= microseconds < 1000000]; only [days]
    carries the sign. *)
Record timedelta : Type := mk_timedelta
  { days : Z; seconds : Z; microseconds : Z }.

(** Normalisation by [divmod], as the constructor of [timedelta] does. *)
Definition normalize (d s us : Z) : timedelta :=
  let s := s + us / us_per_second in
  let us := us mod us_per_second in
  let d := d + s / seconds_per_day in
  let s := s mod seconds_per_day in
  {| days := d; seconds := s; microseconds := us |}.

(** [datetime.timedelta(days=d)]: more than 999999999 days either way are
    an OverflowError, here [None]. *)
Definition timedelta_of_days (d : Z) : option timedelta :=
  if Z.abs d <=? 999999999 then Some (normalize d 0 0) else None.

(** The days the type holds, from 0001-01-01 to 9999-12-31. *)
Definition max_days : Z := 3652059.

Definition total_microseconds (td : timedelta) : Z :=
  (days td * seconds_per_day + seconds td) * us_per_second + microseconds td.

(** [t + td]: a sum before year 1 or after year 9999 is an OverflowError,
    here [None]. *)
Definition add (t : datetime) (td : timedelta) : option datetime :=
  let sum := t + total_microseconds td in
  if (0 <=? sum) && (sum <? max_days * us_per_day) then Some sum else None.

(** [a - b] on two datetimes. *)
Definition sub (a b : datetime) : timedelta := normalize 0 0 (a - b).

(** Midnight of a day counted from the first day. *)
Definition of_day (n : Z) : datetime := n * us_per_day.

End datetime.

Abbreviation datetime := datetime.datetime.

(** ** Documents *)

Definition ObjectId : Type := N.

(** [data/bookings.py]: the embedded document of a cage. A fresh
    [Booking()] has no guest, no [booked_date], no review and rating 0. *)
Module Booking.

Record t : Type := mk
  { guest_owner_id : option ObjectId;
    guest_snake_id : option ObjectId;
    booked_date : option datetime;
    check_in_date : datetime;
    check_out_date : datetime;
    review : option string;
    rating : Z }.

(** The property [duration_in_days]. *)
Definition duration_in_days (self : t) : Z :=
  let dt := datetime.sub (check_out_date self) (check_in_date self) in
  datetime.days dt.

End Booking.

Abbreviation Booking := Booking.t.

(** [data/cages.py]. *)
Module Cage.

Record t : Type := mk
  { id : ObjectId;
    registered_date : datetime;
    name : string;
    price : Q;
    square_meters : Q;
    is_carpeted : bool;
    has_toys : bool;
    allow_dangerous_snakes : bool;
    bookings : list Booking }.

End Cage.

Abbreviation Cage := Cage.t.

(** [data/snakes.py]. *)
Module Snake.

Record t : Type := mk
  { id : ObjectId;
    registered_date : datetime;
    species : string;
    name : string;
    length : Q;
    is_venomous : bool }.

End Snake.

Abbreviation Snake := Snake.t.

(** [data/owners.py]. *)
Module Owner.

Record t : Type := mk
  { id : ObjectId;
    registered_date : datetime;
    name : string;
    email : string;
    snake_ids : list ObjectId;
    cage_ids : list ObjectId }.

End Owner.

Abbreviation Owner := Owner.t.

(** The three collections of the [core] database, each in stored order. *)
Record Database : Type := mk_Database
  { cages : list Cage;
    owners : list Owner;
    snakes : list Snake }.

(** ** Outcomes and the state monad *)

(** The exceptions these functions raise: an attribute looked up on an
    object of the named type, which does not have it, and a date or a
    duration out of range. *)
Inductive exception : Type :=
| AttributeError (type_name attribute : string)
| OverflowError.

Inductive outcome (A : Type) : Type :=
| Return (a : A)
| Raise (e : exception).

Arguments Return {A} a.
Arguments Raise {A} e.

(** A computation over a state [S]: the state survives an exception. *)
Definition M (S A : Type) : Type := S → outcome A * S.

Definition ret {S A} (a : A) : M S A := λ s, (Return a, s).

Definition raise {S A} (e : exception) : M S A := λ s, (Raise e, s).

Definition bind {S A B} (m : M S A) (k : A → M S B) : M S B :=
  λ s, match m s with
       | (Return a, s') => k a s'
       | (Raise e, s') => (Raise e, s')
       end.

Definition gets {S A} (f : S → A) : M S A := λ s, (Return (f s), s).

Definition modify {S} (f : S → S) : M S unit := λ s, (Return tt, f s).

(** The value of a computation of the interpreter that may raise [e]. *)
Definition or_raise {S A} (e : exception) (o : option A) : M S A :=
  match o with
  | Some a => ret a
  | None => raise e
  end.

Declare Scope py_scope.
Delimit Scope py_scope with py.
Notation "'let*' x ':=' c 'in' k" := (bind c (λ x, k))
  (at level 10, x name, c at level 100, k at level 200) : py_scope.
Notation "c ';;' k" := (bind c (λ _, k))
  (at level 100, k at level 200, right associativity) : py_scope.

(** ** The query layer

    Modelled from the spec: the document database and the query sets over
    its [cages] collection ([Cage.objects()], [.filter], [.order_by],
    [.first], [.save]), which are a library and a server outside the
    sources. The specification gives the query shape (section 6: documents
    are selected by field-level comparisons, and a comparison on a field of
    the embedded [bookings] holds when an element of the list satisfies it)
    and the ordering (sections 4.1 and 8: price ascending, then
    square_meters descending, stable for equal keys). A query set is
    evaluated against the collection when it is iterated. *)

Module QuerySet.

Definition t : Type := list Cage → list Cage.

(** [Cage.objects()]. *)
Definition objects : t := λ collection, collection.

(** [.filter(...)]; successive filters are a conjunction. The lookups the
    functions use follow. *)
Definition filter (criterion : Cage → bool) (q : t) : t :=
  λ collection, List.filter criterion (q collection).

Definition square_meters__gte (v : Q) (c : Cage) : bool :=
  Qle_bool v (Cage.square_meters c).

Definition bookings__check_in_date__lte (v : datetime) (c : Cage) : bool :=
  existsb (λ b, Booking.check_in_date b <=? v) (Cage.bookings c).

Definition bookings__check_out_date__gte (v : datetime) (c : Cage) : bool :=
  existsb (λ b, Booking.check_out_date b >=? v) (Cage.bookings c).

Definition allow_dangerous_snakes (v : bool) (c : Cage) : bool :=
  Bool.eqb (Cage.allow_dangerous_snakes c) v.

Definition id (v : ObjectId) (c : Cage) : bool :=
  N.eqb (Cage.id c) v.

(** The compound sort key [('price', '-square_meters')]: [c1] may come
    before [c2]. *)
Definition price_then_larger (c1 c2 : Cage) : bool :=
  match (Cage.price c1 ?= Cage.price c2)%Q with
  | Lt => true
  | Gt => false
  | Eq => Qle_bool (Cage.square_meters c2) (Cage.square_meters c1)
  end.

(** Modelled from the spec: the sort of the database. Documents that
    compare equal on the whole key keep the order in which the collection
    yields them ("stable for equal keys"). *)
Fixpoint insert_sorted (before : Cage → Cage → bool) (c : Cage)
    (sorted : list Cage) : list Cage :=
  match sorted with
  | [] => [c]
  | d :: rest =>
      if before c d then c :: d :: rest
      else d :: insert_sorted before c rest
  end.

(** Modelled from the spec: the sort of the database, by insertion. *)
Definition sort (before : Cage → Cage → bool) (l : list Cage) : list Cage :=
  foldr (insert_sorted before) [] l.

(** Modelled from the spec: [.order_by('price', '-square_meters')]. *)
Definition order_by (before : Cage → Cage → bool) (q : t) : t :=
  λ collection, sort before (q collection).

(** Iterating the query set reads the collection and writes nothing. *)
Definition iterate (q : t) : M Database (list Cage) :=
  gets (λ db, q (cages db)).

(** [.first()]. *)
Definition first (q : t) : M Database (option Cage) :=
  gets (λ db, head (q (cages db))).

End QuerySet.

(** Modelled from the spec: [cage.save()] writes the cage back as a whole
    document. The stored document with the same id is replaced where it
    stands; a document whose id is not stored is inserted at the end. *)
Fixpoint replace_by_id (c : Cage) (collection : list Cage) : list Cage :=
  match collection with
  | [] => [c]
  | d :: rest =>
      if N.eqb (Cage.id d) (Cage.id c) then c :: rest
      else d :: replace_by_id c rest
  end.

Definition save (c : Cage) : M Database unit :=
  modify (λ db, {| cages := replace_by_id c (cages db);
                   owners := owners db;
                   snakes := snakes db |}).

(** ** services/data_service.py *)

(** The test both loops make on a window [b]:
    [b.check_in_date <= checkin and b.check_out_date >= checkout and
     b.guest_snake_id is None]. *)
Definition window_test (checkin checkout : datetime) (b : Booking) : bool :=
  (Booking.check_in_date b <=? checkin)
  && (Booking.check_out_date b >=? checkout)
  && (match Booking.guest_snake_id b with None => true | Some _ => false end).

(** [for b in bookings: if test b: ...; break], from position [i] on: the
    position and window at which the loop broke, if it did, and the windows
    the loop looked at. *)
Fixpoint scan (test : Booking → bool) (i : nat) (bookings : list Booking)
    : option (nat * Booking) * list Booking :=
  match bookings with
  | [] => (None, [])
  | b :: rest =>
      if test b then (Some (i, b), [b])
      else let '(found, seen) := scan test (S i) rest in (found, b :: seen)
  end.

Local Open Scope py_scope.

(** [get_available_cages(checkin, checkout, snake)], with its result and,
    for each cage the outer loop reaches, the windows the inner loop has
    looked at before it ended. *)
Definition get_available_cages_traced (checkin checkout : datetime)
    (snake : Snake) : M Database (list Cage * list (Cage * list Booking)) :=
  let min_size := (Snake.length snake / 4)%Q in
  let query :=
    QuerySet.filter (QuerySet.bookings__check_out_date__gte checkout)
      (QuerySet.filter (QuerySet.bookings__check_in_date__lte checkin)
        (QuerySet.filter (QuerySet.square_meters__gte min_size)
          QuerySet.objects)) in
  let query :=
    if Snake.is_venomous snake
    then QuerySet.filter (QuerySet.allow_dangerous_snakes true) query
    else query in
  let cages := QuerySet.order_by QuerySet.price_then_larger query in
  let* cages := QuerySet.iterate cages in
  let final_cages :=
    fold_left
      (λ '(final_cages, looked_at) c,
         let '(found, seen) :=
           scan (window_test checkin checkout) 0 (Cage.bookings c) in
         (match found with
          | Some _ => final_cages ++ [c]
          | None => final_cages
          end,
          looked_at ++ [(c, seen)]))
      cages ([], []) in
  ret final_cages.

(** [get_available_cages(checkin, checkout, snake)]: the list the function
    returns. *)
Definition get_available_cages (checkin checkout : datetime) (snake : Snake)
    : M Database (list Cage) :=
  let* traced := get_available_cages_traced checkin checkout snake in
  ret (fst traced).

(** Assignments to the attributes of a window. *)
Definition set_guest_owner_id (v : option ObjectId) (b : Booking) : Booking :=
  Booking.mk v (Booking.guest_snake_id b) (Booking.booked_date b)
    (Booking.check_in_date b) (Booking.check_out_date b)
    (Booking.review b) (Booking.rating b).

Definition set_guest_snake_id (v : option ObjectId) (b : Booking) : Booking :=
  Booking.mk (Booking.guest_owner_id b) v (Booking.booked_date b)
    (Booking.check_in_date b) (Booking.check_out_date b)
    (Booking.review b) (Booking.rating b).

Definition set_booked_date (v : option datetime) (b : Booking) : Booking :=
  Booking.mk (Booking.guest_owner_id b) (Booking.guest_snake_id b) v
    (Booking.check_in_date b) (Booking.check_out_date b)
    (Booking.review b) (Booking.rating b).

Definition set_check_in_date (v : datetime) (b : Booking) : Booking :=
  Booking.mk (Booking.guest_owner_id b) (Booking.guest_snake_id b)
    (Booking.booked_date b) v (Booking.check_out_date b)
    (Booking.review b) (Booking.rating b).

Definition set_check_out_date (v : datetime) (b : Booking) : Booking :=
  Booking.mk (Booking.guest_owner_id b) (Booking.guest_snake_id b)
    (Booking.booked_date b) (Booking.check_in_date b) v
    (Booking.review b) (Booking.rating b).

Definition set_bookings (v : list Booking) (c : Cage) : Cage :=
  Cage.mk (Cage.id c) (Cage.registered_date c) (Cage.name c) (Cage.price c)
    (Cage.square_meters c) (Cage.is_carpeted c) (Cage.has_toys c)
    (Cage.allow_dangerous_snakes c) v.

(** The state of [book_cage]: the caller's cage document, which the
    function mutates in place, and the database. *)
Definition BookState : Type := (Cage * Database)%type.

(** [booking.attribute = ...], where [booking] is either [None] or the
    window that stands at a position of [cage.bookings]: the assignment
    goes through to the cage. *)
Definition setattr (booking : option nat) (attribute : string)
    (assign : Booking → Booking) : M BookState unit :=
  match booking with
  | None => raise (AttributeError "NoneType" attribute)
  | Some i =>
      modify (λ '(cage, db),
                (set_bookings (alter assign i (Cage.bookings cage)) cage, db))
  end.

(** Runs a database computation from within [book_cage]. *)
Definition on_database {A} (m : M Database A) : M BookState A :=
  λ '(cage, db), let '(r, db') := m db in (r, (cage, db')).

Definition book_cage_body (account : Owner) (snake : Snake)
    (checkin checkout now : datetime) : M BookState unit :=
  let* cage := gets fst in
  let booking :=
    fst <$> fst (scan (window_test checkin checkout) 0 (Cage.bookings cage)) in
  setattr booking "guest_owner_id" (set_guest_owner_id (Some (Owner.id account))) ;;
  setattr booking "guest_snake_id" (set_guest_snake_id (Some (Snake.id snake))) ;;
  setattr booking "check_in_date" (set_check_in_date checkin) ;;
  setattr booking "check_out_date" (set_check_out_date checkout) ;;
  setattr booking "booked_date" (set_booked_date (Some now)) ;;
  let* cage := gets fst in
  on_database (save cage).

(** [book_cage(account, snake, cage, checkin, checkout)], with the reading
    [now] of the clock and the database [db] it runs against. *)
Definition book_cage (account : Owner) (snake : Snake) (cage : Cage)
    (checkin checkout now : datetime) (db : Database) : outcome unit * BookState :=
  book_cage_body account snake checkin checkout now (cage, db).

(** [add_available_date(cage, start_date, days)]: the window is built, and
    its dates computed, before the cage is fetched. *)
Definition add_available_date (cage : Cage) (start_date : datetime) (days : Z)
    : M Database Cage :=
  let* delta := or_raise OverflowError (datetime.timedelta_of_days days) in
  let* check_out_date :=
    or_raise OverflowError (datetime.add start_date delta) in
  let booking :=
    Booking.mk None None None start_date check_out_date None 0 in
  let* cage := QuerySet.first (QuerySet.filter (QuerySet.id (Cage.id cage))
                                 QuerySet.objects) in
  match cage with
  | None => raise (AttributeError "NoneType" "bookings")
  | Some cage =>
      let cage := set_bookings (Cage.bookings cage ++ [booking]) cage in
      save cage ;;
      ret cage
  end.

(** ** The rest of services/data_service.py, and infrastructure/state.py *)

(** Modelled from the spec: [owner.save()] and [snake.save()], as
    [cage.save()] above. A new document is saved under the id the driver
    draws for it, which is an argument of the function that creates it. *)
Fixpoint replace_owner_by_id (o : Owner) (collection : list Owner)
    : list Owner :=
  match collection with
  | [] => [o]
  | d :: rest =>
      if N.eqb (Owner.id d) (Owner.id o) then o :: rest
      else d :: replace_owner_by_id o rest
  end.

Definition save_owner (o : Owner) : M Database unit :=
  modify (λ db, {| cages := cages db;
                   owners := replace_owner_by_id o (owners db);
                   snakes := snakes db |}).

Fixpoint replace_snake_by_id (s : Snake) (collection : list Snake)
    : list Snake :=
  match collection with
  | [] => [s]
  | d :: rest =>
      if N.eqb (Snake.id d) (Snake.id s) then s :: rest
      else d :: replace_snake_by_id s rest
  end.

Definition save_snake (s : Snake) : M Database unit :=
  modify (λ db, {| cages := cages db;
                   owners := owners db;
                   snakes := replace_snake_by_id s (snakes db) |}).

(** [create_account(name, email)]; [new_id] is the id of the new document
    and [now] the clock reading of its [registered_date]. *)
Definition create_account (name email : string) (new_id : ObjectId)
    (now : datetime) : M Database Owner :=
  let owner := Owner.mk new_id now name email [] [] in
  save_owner owner ;;
  ret owner.

(** [find_account_by_email(email)]: [Owner.objects(email=email).first()]. *)
Definition find_account_by_email (email : string) : M Database (option Owner) :=
  gets (λ db,
          head (List.filter (λ o, String.eqb (Owner.email o) email) (owners db))).

Definition set_cage_ids (v : list ObjectId) (o : Owner) : Owner :=
  Owner.mk (Owner.id o) (Owner.registered_date o) (Owner.name o)
    (Owner.email o) (Owner.snake_ids o) v.

Definition set_snake_ids (v : list ObjectId) (o : Owner) : Owner :=
  Owner.mk (Owner.id o) (Owner.registered_date o) (Owner.name o)
    (Owner.email o) v (Owner.cage_ids o).

(** [register_cage(active_account, name, allow_dangerous, has_toys,
    carpeted, meters, price)]. *)
Definition register_cage (active_account : Owner) (name : string)
    (allow_dangerous has_toys carpeted : bool) (meters price : Q)
    (new_id : ObjectId) (now : datetime) : M Database Cage :=
  let cage :=
    Cage.mk new_id now name price meters carpeted has_toys allow_dangerous [] in
  save cage ;;
  let* account := find_account_by_email (Owner.email active_account) in
  match account with
  | None => raise (AttributeError "NoneType" "cage_ids")
  | Some account =>
      let account :=
        set_cage_ids (Owner.cage_ids account ++ [Cage.id cage]) account in
      save_owner account ;;
      ret cage
  end.

(** The lookup [id__in=ids]. *)
Definition id__in (ids : list ObjectId) (i : ObjectId) : bool :=
  existsb (N.eqb i) ids.

(** [find_cages_for_user(account)]. *)
Definition find_cages_for_user (account : Owner) : M Database (list Cage) :=
  QuerySet.iterate
    (QuerySet.filter (λ c, id__in (Owner.cage_ids account) (Cage.id c))
       QuerySet.objects).

(** [add_snake(account, name, length, species, is_venomous)]. *)
Definition add_snake (account : Owner) (name : string) (length : Q)
    (species : string) (is_venomous : bool)
    (new_id : ObjectId) (now : datetime) : M Database Snake :=
  let snake := Snake.mk new_id now species name length is_venomous in
  save_snake snake ;;
  let* owner := find_account_by_email (Owner.email account) in
  match owner with
  | None => raise (AttributeError "NoneType" "snake_ids")
  | Some owner =>
      let owner :=
        set_snake_ids (Owner.snake_ids owner ++ [Snake.id snake]) owner in
      save_owner owner ;;
      ret snake
  end.

(** [get_snakes_for_user(user_id)]. *)
Definition get_snakes_for_user (user_id : ObjectId) : M Database (list Snake) :=
  let* owner :=
    gets (λ db, head (List.filter (λ o, N.eqb (Owner.id o) user_id) (owners db))) in
  match owner with
  | None => raise (AttributeError "NoneType" "snake_ids")
  | Some owner =>
      gets (λ db,
              List.filter (λ s, id__in (Owner.snake_ids owner) (Snake.id s))
                (snakes db))
  end.

(** A cage loaded with [.only('bookings', 'name')]: its id and the two
    fields. *)
Module CageOnly.

Record t : Type := mk
  { id : ObjectId;
    name : string;
    bookings : list Booking }.

End CageOnly.

Abbreviation CageOnly := CageOnly.t.

Definition only_bookings_name (c : Cage) : CageOnly :=
  CageOnly.mk (Cage.id c) (Cage.name c) (Cage.bookings c).

(** A booking with the attribute [cage] that [get_bookings_for_user]
    attaches to it. *)
Module BookingOfCage.

Record t : Type := mk
  { booking : Booking;
    cage : CageOnly }.

End BookingOfCage.

Abbreviation BookingOfCage := BookingOfCage.t.

(** The lookup [bookings__guest_owner_id=v]. *)
Definition bookings__guest_owner_id (v : ObjectId) (c : Cage) : bool :=
  existsb
    (λ b, match Booking.guest_owner_id b with
          | Some g => N.eqb g v
          | None => false
          end)
    (Cage.bookings c).

(** [get_bookings_for_user(email)]. *)
Definition get_bookings_for_user (email : string)
    : M Database (list BookingOfCage) :=
  let* account := find_account_by_email email in
  match account with
  | None => raise (AttributeError "NoneType" "id")
  | Some account =>
      let* booked_cages :=
        QuerySet.iterate
          (QuerySet.filter (bookings__guest_owner_id (Owner.id account))
             QuerySet.objects) in
      let map_cage_to_booking cage booking := BookingOfCage.mk booking cage in
      ret (flat_map
             (λ c,
                let cage := only_bookings_name c in
                List.map (map_cage_to_booking cage)
                  (List.filter
                     (λ b, match Booking.guest_owner_id b with
                           | Some g => N.eqb g (Owner.id account)
                           | None => false
                           end)
                     (CageOnly.bookings cage)))
             booked_cages)
  end.

(** [infrastructure/state.py], [reload_account()]: the new value of the
    global [active_account], from its value [active_account] at the call. *)
Definition reload_account (active_account : option Owner)
    : M Database (option Owner) :=
  match active_account with
  | None => ret None
  | Some account => find_account_by_email (Owner.email account)
  end.

(** ** Notions the properties are stated with *)

(** The order of [('price', '-square_meters')]: a lower price first and,
    at the same price, the larger cage first. *)
Definition cheaper_then_larger (c1 c2 : Cage) : Prop :=
  (Cage.price c1 < Cage.price c2)%Q
  ∨ (Cage.price c1 == Cage.price c2)%Q
    ∧ (Cage.square_meters c2 <= Cage.square_meters c1)%Q.

(** Two cages with the same price and the same size. *)
Definition same_keys (c1 c2 : Cage) : bool :=
  Qeq_bool (Cage.price c1) (Cage.price c2)
  && Qeq_bool (Cage.square_meters c1) (Cage.square_meters c2).

(** The documents the query of [get_available_cages] selects on the
    server, before the sort. *)
Definition candidates (checkin checkout : datetime) (snake : Snake)
    (collection : list Cage) : list Cage :=
  let sized :=
    List.filter (QuerySet.bookings__check_out_date__gte checkout)
      (List.filter (QuerySet.bookings__check_in_date__lte checkin)
        (List.filter
           (QuerySet.square_meters__gte (Snake.length snake / 4)%Q)
           collection)) in
  if Snake.is_venomous snake
  then List.filter (QuerySet.allow_dangerous_snakes true) sized
  else sized.

(** The filter of the function on one cage, as a boolean. *)
Definition selects (checkin checkout : datetime) (snake : Snake) (c : Cage)
    : bool :=
  Qle_bool (Snake.length snake / 4)%Q (Cage.square_meters c)
  && implb (Snake.is_venomous snake) (Cage.allow_dangerous_snakes c)
  && existsb (window_test checkin checkout) (Cage.bookings c).

(** The same filter as the specification words it. *)
Definition available (checkin checkout : datetime) (snake : Snake) (c : Cage)
    : Prop :=
  (Cage.square_meters c >= Snake.length snake / 4)%Q
  ∧ (Snake.is_venomous snake = true → Cage.allow_dangerous_snakes c = true)
  ∧ ∃ b, b ∈ Cage.bookings c
         ∧ Booking.check_in_date b <= checkin
         ∧ Booking.check_out_date b >= checkout
         ∧ Booking.guest_snake_id b = None.

(** The window [book_cage] leaves in the place of the window [b] it books. *)
Definition reserved (account : Owner) (snake : Snake)
    (checkin checkout now : datetime) (b : Booking) : Booking :=
  Booking.mk (Some (Owner.id account)) (Some (Snake.id snake)) (Some now)
    checkin checkout (Booking.review b) (Booking.rating b).

(** The database after [cage.save()]. *)
Definition saved (cage : Cage) (db : Database) : Database :=
  snd (save cage db).

(** What an explicit failure is: an exception other than the access of an
    attribute of [None]. *)
Definition missing_value_access (e : exception) : bool :=
  match e with
  | AttributeError type_name _ => String.eqb type_name "NoneType"
  | OverflowError => false
  end.

Definition fails_explicitly {A S} (r : outcome A * S) : Prop :=
  ∃ e, fst r = Raise e ∧ missing_value_access e = false.

(** [book_cage] twice for the same range on the same cage document: the
    outcome of the first call, and that of the second and the state it
    leaves, run on the state the first call left. *)
Definition book_cage_twice (account1 : Owner) (snake1 : Snake)
    (account2 : Owner) (snake2 : Snake) (cage : Cage)
    (checkin checkout now1 now2 : datetime) (db : Database)
    : outcome unit * (outcome unit * BookState) :=
  let '(first, (cage1, db1)) :=
    book_cage account1 snake1 cage checkin checkout now1 db in
  (first, book_cage account2 snake2 cage1 checkin checkout now2 db1).

(** A window without a guest snake. *)
Definition is_open (b : Booking) : bool :=
  match Booking.guest_snake_id b with None => true | Some _ => false end.

(** The three fields of a reservation are set together or not at all: the
    guest owner and the booking time are there exactly when the guest snake
    is. *)
Definition window_consistent (b : Booking) : Prop :=
  (is_Some (Booking.guest_owner_id b) ↔ is_Some (Booking.guest_snake_id b))
  ∧ (is_Some (Booking.booked_date b) ↔ is_Some (Booking.guest_snake_id b)).

Definition database_consistent (db : Database) : Prop :=
  Forall (λ c, Forall window_consistent (Cage.bookings c)) (cages db).

(** ** Sample data *)

Definition day : Z → datetime := datetime.of_day.

(** An open window from day [a] to day [b]. *)
Definition open_window (a b : Z) : Booking :=
  Booking.mk None None None (day a) (day b) None 0.

Definition owner_ada : Owner := Owner.mk 100%N 0 "Ada" "ada@example.org" [200%N] [].

(** A harmless snake of 4 m and a venomous one of 2 m. *)
Definition snake_slim : Snake := Snake.mk 200%N 0 "Python regius" "Slim" 4 false.
Definition snake_fang : Snake := Snake.mk 201%N 0 "Naja naja" "Fang" 2 true.

(** Two cages at the same price and size, a cheaper small one, and one with
    two overlapping windows. *)
Definition cage_oak : Cage :=
  Cage.mk 1%N 0 "Oak" 10 2 true true false [open_window 1 10].
Definition cage_elm : Cage :=
  Cage.mk 2%N 0 "Elm" 10 2 false true true [open_window 1 10].
Definition cage_tiny : Cage :=
  Cage.mk 3%N 0 "Tiny" 5 (1 # 4) false false false
    [open_window 1 10; open_window 0 20].
Definition cage_twin : Cage :=
  Cage.mk 4%N 0 "Twin" 12 3 true false false
    [open_window 8 9; open_window 1 10; open_window 0 20].

Definition db_sample : Database :=
  mk_Database [cage_oak; cage_elm; cage_tiny; cage_twin]
    [owner_ada] [snake_slim; snake_fang].

(** A cage with a window booked by [owner_ada] for [snake_slim], beside an
    open one, and a database that holds it. *)
Definition cage_let : Cage :=
  Cage.mk 6%N 0 "Let" 9 2 true true false
    [Booking.mk (Some 100%N) (Some 200%N) (Some 50) (day 2) (day 5) None 0;
     open_window 6 9].

Definition db_booked : Database :=
  mk_Database [cage_oak; cage_let] [owner_ada] [snake_slim].

(** * Properties *)

(** ** The window loop *)

Section Scan.

Variable test : Booking → bool.

Lemma scan_none i bs :
  Forall (λ b, test b = false) bs → scan test i bs = (None, bs).
Proof.
  intros H. revert i. induction H as [|b bs Hb _ IH]; intros i; simpl.
  - reflexivity.
  - rewrite Hb, IH. reflexivity.
Qed.

(** The loop breaks at the first window that passes the test, and has
    looked at the windows up to that one and at none after it. *)
Lemma scan_first i pre b post :
  Forall (λ b, test b = false) pre → test b = true →
  scan test i (pre ++ b :: post)
  = (Some ((i + length pre)%nat, b), pre ++ [b]).
Proof.
  intros H Hb. revert i. induction H as [|a pre Ha _ IH]; intros i; simpl.
  - rewrite Hb. do 3 f_equal. lia.
  - rewrite Ha, IH. do 3 f_equal. lia.
Qed.

(** A list splits at its first element that passes the test, if any. *)
Lemma first_split bs :
  Forall (λ b, test b = false) bs
  ∨ ∃ pre b post, bs = pre ++ b :: post
      ∧ Forall (λ b, test b = false) pre ∧ test b = true.
Proof.
  induction bs as [|a bs IH].
  - left. constructor.
  - destruct (test a) eqn:Ha.
    + right. exists [], a, bs. repeat split; [constructor | exact Ha].
    + destruct IH as [IH | (pre & b & post & -> & Hpre & Hb)].
      * left. constructor; assumption.
      * right. exists (a :: pre), b, post.
        repeat split; [constructor; assumption | exact Hb].
Qed.

Lemma scan_found_existsb i bs :
  match fst (scan test i bs) with Some _ => true | None => false end
  = existsb test bs.
Proof.
  revert i. induction bs as [|a bs IH]; intros i; simpl.
  - reflexivity.
  - destruct (test a) eqn:Ha; simpl; [reflexivity|].
    specialize (IH (S i)). destruct (scan test (S i) bs) as [found seen].
    exact IH.
Qed.

End Scan.

(** The client-side loops of [get_available_cages] keep, in order, the
    cages that have a window passing the test, and look, in each cage they
    reach, at the windows the scan of that cage looks at. *)
Lemma final_cages_filter test cs final looked :
  fold_left
    (λ '(final_cages, looked_at) c,
       let '(found, seen) := scan test 0 (Cage.bookings c) in
       (match found with
        | Some _ => final_cages ++ [c]
        | None => final_cages
        end,
        looked_at ++ [(c, seen)]))
    cs (final, looked)
  = (final ++ List.filter (λ c, existsb test (Cage.bookings c)) cs,
     looked ++ List.map (λ c, (c, snd (scan test 0 (Cage.bookings c)))) cs).
Proof.
  revert final looked. induction cs as [|c cs IH]; intros final looked; simpl.
  - rewrite !app_nil_r. reflexivity.
  - rewrite <- (scan_found_existsb test 0 (Cage.bookings c)).
    destruct (scan test 0 (Cage.bookings c)) as [found seen]. simpl.
    rewrite IH. destruct found; simpl; rewrite <- !app_assoc; reflexivity.
Qed.

(** ** The window test *)

Lemma window_test_true checkin checkout b :
  window_test checkin checkout b = true ↔
  Booking.check_in_date b <= checkin
  ∧ Booking.check_out_date b >= checkout
  ∧ Booking.guest_snake_id b = None.
Proof.
  unfold window_test. rewrite !andb_true_iff, Z.leb_le, Z.geb_le.
  destruct (Booking.guest_snake_id b); split; intros H.
  - destruct H as [_ H]. discriminate H.
  - destruct H as (_ & _ & H). discriminate H.
  - destruct H as [[? ?] _]. repeat split; lia.
  - destruct H as (? & ? & _). repeat split; lia.
Qed.

(** A window that has a guest passes the test of no query. *)
Lemma window_test_booked checkin checkout b :
  is_Some (Booking.guest_snake_id b) → window_test checkin checkout b = false.
Proof.
  intros [g Hg]. unfold window_test. rewrite Hg. apply andb_false_r.
Qed.

(** ** The sort stage *)

Section Sort.

Variable before : Cage → Cage → bool.

Lemma insert_sorted_perm c l :
  QuerySet.insert_sorted before c l ≡ₚ c :: l.
Proof.
  induction l as [|d l IH]; simpl.
  - reflexivity.
  - destruct (before c d).
    + reflexivity.
    + rewrite IH. apply Permutation_swap.
Qed.

Lemma sort_perm l : QuerySet.sort before l ≡ₚ l.
Proof.
  induction l as [|c l IH]; simpl.
  - reflexivity.
  - rewrite insert_sorted_perm, IH. reflexivity.
Qed.

(** Sortedness, for a relation [R] that [before] decides and that is
    total. *)
Section Sorted.

Variable R : relation Cage.
Hypothesis before_R : ∀ a b, before a b = true → R a b.
Hypothesis not_before_R : ∀ a b, before a b = false → R b a.

Lemma insert_sorted_Sorted c l :
  Sorted R l → Sorted R (QuerySet.insert_sorted before c l).
Proof.
  induction 1 as [|d l Hl IH Hd]; simpl.
  - repeat constructor.
  - destruct (before c d) eqn:Hcd.
    + constructor; [constructor; assumption|].
      constructor. apply before_R, Hcd.
    + constructor; [exact IH|].
      destruct l as [|e l]; simpl.
      * constructor. apply not_before_R, Hcd.
      * destruct (before c e) eqn:Hce.
        -- constructor. apply not_before_R, Hcd.
        -- constructor. inversion Hd; subst. assumption.
Qed.

Lemma sort_Sorted l : Sorted R (QuerySet.sort before l).
Proof.
  induction l as [|c l IH]; simpl.
  - constructor.
  - apply insert_sorted_Sorted, IH.
Qed.

End Sorted.

(** Stability: within a class [p] of documents none of which [before]
    puts after another, the sort keeps the order of its input. *)
Section Stable.

Variable p : Cage → bool.
Hypothesis p_before : ∀ a b, p a = true → p b = true → before a b = true.

Lemma insert_sorted_filter c l :
  List.filter p (QuerySet.insert_sorted before c l)
  = List.filter p (c :: l).
Proof.
  induction l as [|d l IH]; simpl.
  - reflexivity.
  - destruct (before c d) eqn:Hcd; simpl.
    + reflexivity.
    + rewrite IH. simpl.
      destruct (p c) eqn:Hc, (p d) eqn:Hd; try reflexivity.
      rewrite (p_before c d Hc Hd) in Hcd. discriminate Hcd.
Qed.

Lemma sort_filter l :
  List.filter p (QuerySet.sort before l) = List.filter p l.
Proof.
  induction l as [|c l IH]; simpl.
  - reflexivity.
  - rewrite insert_sorted_filter. simpl. rewrite IH. reflexivity.
Qed.

End Stable.

End Sort.

Lemma filter_StronglySorted (R : relation Cage) (p : Cage → bool) l :
  StronglySorted R l → StronglySorted R (List.filter p l).
Proof.
  induction 1 as [|c l Hl IH Hc]; simpl.
  - constructor.
  - destruct (p c); [|exact IH].
    constructor; [exact IH|].
    rewrite Forall_forall in Hc |- *.
    intros d Hd. apply Hc.
    apply list_elem_of_In. apply list_elem_of_In in Hd.
    apply filter_In in Hd. tauto.
Qed.

Lemma price_then_larger_true c1 c2 :
  QuerySet.price_then_larger c1 c2 = true → cheaper_then_larger c1 c2.
Proof.
  unfold QuerySet.price_then_larger, cheaper_then_larger.
  destruct (Qcompare_spec (Cage.price c1) (Cage.price c2)) as [He|Hl|Hg].
  - intros H%Qle_bool_iff. right. split; assumption.
  - intros _. left. assumption.
  - discriminate.
Qed.

Lemma price_then_larger_false c1 c2 :
  QuerySet.price_then_larger c1 c2 = false → cheaper_then_larger c2 c1.
Proof.
  unfold QuerySet.price_then_larger, cheaper_then_larger.
  destruct (Qcompare_spec (Cage.price c1) (Cage.price c2)) as [He|Hl|Hg].
  - intros H. right. split; [symmetry; assumption|].
    destruct (Qlt_le_dec (Cage.square_meters c1) (Cage.square_meters c2))
      as [Hlt|Hle].
    + apply Qlt_le_weak, Hlt.
    + apply Qle_bool_iff in Hle. congruence.
  - discriminate.
  - intros _. left. assumption.
Qed.

#[local] Instance cheaper_then_larger_trans : Transitive cheaper_then_larger.
Proof.
  intros a b c [Hab | [Hab Sab]] [Hbc | [Hbc Sbc]].
  - left. eapply Qlt_trans; eassumption.
  - left. rewrite <- Hbc. assumption.
  - left. rewrite Hab. assumption.
  - right. split.
    + rewrite Hab. assumption.
    + eapply Qle_trans; eassumption.
Qed.

Lemma same_keys_before c a b :
  same_keys a c = true → same_keys b c = true →
  QuerySet.price_then_larger a b = true.
Proof.
  unfold same_keys. rewrite !andb_true_iff, !Qeq_bool_iff.
  intros [Pa Sa] [Pb Sb]. unfold QuerySet.price_then_larger.
  assert (HP : (Cage.price a == Cage.price b)%Q) by (rewrite Pa, Pb; reflexivity).
  apply Qeq_alt in HP. rewrite HP.
  apply Qle_bool_iff. rewrite Sa, Sb. apply Qle_refl.
Qed.

(** ** get_available_cages *)

(** The function returns; its result is the sorted candidates with a
    window that passes the test, and the loops look into each sorted
    candidate as the scan of its windows does. *)
Lemma get_available_cages_traced_run checkin checkout snake db :
  get_available_cages_traced checkin checkout snake db
  = (Return
       (List.filter
          (λ c, existsb (window_test checkin checkout) (Cage.bookings c))
          (QuerySet.sort QuerySet.price_then_larger
             (candidates checkin checkout snake (cages db))),
        List.map
          (λ c, (c, snd (scan (window_test checkin checkout) 0
                           (Cage.bookings c))))
          (QuerySet.sort QuerySet.price_then_larger
             (candidates checkin checkout snake (cages db)))),
     db).
Proof.
  unfold get_available_cages_traced, candidates, bind, ret, QuerySet.iterate,
    gets, QuerySet.order_by, QuerySet.filter, QuerySet.objects.
  rewrite final_cages_filter. simpl.
  destruct (Snake.is_venomous snake); reflexivity.
Qed.

Lemma get_available_cages_run checkin checkout snake db :
  get_available_cages checkin checkout snake db
  = (Return
       (List.filter
          (λ c, existsb (window_test checkin checkout) (Cage.bookings c))
          (QuerySet.sort QuerySet.price_then_larger
             (candidates checkin checkout snake (cages db)))),
     db).
Proof.
  unfold get_available_cages, bind.
  rewrite get_available_cages_traced_run. reflexivity.
Qed.

Lemma existsb_window_test checkin checkout bs :
  existsb (window_test checkin checkout) bs = true ↔
  ∃ b, b ∈ bs
       ∧ Booking.check_in_date b <= checkin
       ∧ Booking.check_out_date b >= checkout
       ∧ Booking.guest_snake_id b = None.
Proof.
  rewrite existsb_exists. split.
  - intros (b & Hb & Ht). exists b. split; [apply list_elem_of_In, Hb|].
    apply window_test_true, Ht.
  - intros (b & Hb & Ht). exists b. split; [apply list_elem_of_In, Hb|].
    apply window_test_true, Ht.
Qed.

Lemma selects_available checkin checkout snake c :
  selects checkin checkout snake c = true ↔ available checkin checkout snake c.
Proof.
  unfold selects, available.
  rewrite !andb_true_iff, Qle_bool_iff, existsb_window_test.
  destruct (Snake.is_venomous snake), (Cage.allow_dangerous_snakes c); simpl;
    unfold Qge; intuition discriminate.
Qed.

(** A window that passes the test passes both date lookups of the query. *)
Lemma window_test_lookups checkin checkout c :
  existsb (window_test checkin checkout) (Cage.bookings c) = true →
  QuerySet.bookings__check_in_date__lte checkin c = true
  ∧ QuerySet.bookings__check_out_date__gte checkout c = true.
Proof.
  unfold QuerySet.bookings__check_in_date__lte,
    QuerySet.bookings__check_out_date__gte.
  rewrite !existsb_exists. intros (b & Hb & Ht).
  unfold window_test in Ht. rewrite !andb_true_iff in Ht.
  destruct Ht as [[Hin Hout] _]. split; exists b; split; assumption.
Qed.

Lemma filter_filter_and {A} (p q : A → bool) l :
  List.filter p (List.filter q l) = List.filter (λ x, q x && p x) l.
Proof.
  induction l as [|a l IH]; simpl; [reflexivity|].
  destruct (q a); simpl; [destruct (p a)|]; rewrite IH; reflexivity.
Qed.

Lemma filter_comm {A} (p q : A → bool) l :
  List.filter p (List.filter q l) = List.filter q (List.filter p l).
Proof.
  rewrite !filter_filter_and. apply filter_ext. intros a. apply andb_comm.
Qed.

(** Candidates with a window that passes the test are the cages the filter
    selects, in the order of the collection. *)
Lemma candidates_selects checkin checkout snake collection :
  List.filter (λ c, existsb (window_test checkin checkout) (Cage.bookings c))
    (candidates checkin checkout snake collection)
  = List.filter (selects checkin checkout snake) collection.
Proof.
  unfold candidates.
  destruct (Snake.is_venomous snake) eqn:Hv;
    rewrite !filter_filter_and; apply filter_ext; intros c;
    unfold selects, QuerySet.square_meters__gte,
      QuerySet.allow_dangerous_snakes; rewrite Hv;
    destruct (existsb (window_test checkin checkout) (Cage.bookings c)) eqn:Hw;
    rewrite ?andb_false_r; try reflexivity;
    destruct (window_test_lookups _ _ _ Hw) as [-> ->];
    destruct (Cage.allow_dangerous_snakes c);
    destruct (Qle_bool _ _); reflexivity.
Qed.

Lemma filter_perm {A} (p : A → bool) l l' :
  l ≡ₚ l' → List.filter p l ≡ₚ List.filter p l'.
Proof.
  induction 1 as [|a l l' _ IH|a b l|l l' l'' _ IH1 _ IH2]; simpl.
  - reflexivity.
  - destruct (p a); [constructor|]; exact IH.
  - destruct (p a), (p b); try reflexivity. apply Permutation_swap.
  - etransitivity; eassumption.
Qed.

(** The result is a rearrangement of the stored cages the filter selects. *)
Lemma get_available_cages_perm checkin checkout snake db :
  ∃ result,
    get_available_cages checkin checkout snake db = (Return result, db)
    ∧ result ≡ₚ List.filter (selects checkin checkout snake) (cages db).
Proof.
  eexists. split; [apply get_available_cages_run|].
  rewrite <- candidates_selects.
  apply filter_perm, sort_perm.
Qed.

(** ** book_cage *)

Lemma alter_at_split (f : Booking → Booking) pre b post :
  alter f (length pre) (pre ++ b :: post) = pre ++ f b :: post.
Proof.
  induction pre as [|a pre IH]; simpl.
  - reflexivity.
  - f_equal. exact IH.
Qed.

(** Without a window that passes the test, the first assignment through
    [booking] raises: nothing has been written, in memory or in the
    database. *)
Lemma book_cage_no_match account snake cage checkin checkout now db :
  Forall (λ b, window_test checkin checkout b = false) (Cage.bookings cage) →
  book_cage account snake cage checkin checkout now db
  = (Raise (AttributeError "NoneType" "guest_owner_id"), (cage, db)).
Proof.
  intros H. unfold book_cage, book_cage_body, bind, gets. simpl.
  rewrite (scan_none _ 0 _ H). reflexivity.
Qed.

(** With one, the first such window is rewritten where it stands and the
    cage is saved. *)
Lemma book_cage_match account snake cage checkin checkout now db pre b post :
  Cage.bookings cage = pre ++ b :: post →
  Forall (λ b, window_test checkin checkout b = false) pre →
  window_test checkin checkout b = true →
  let cage' :=
    set_bookings
      (pre ++ reserved account snake checkin checkout now b :: post) cage in
  book_cage account snake cage checkin checkout now db
  = (Return (), (cage', saved cage' db)).
Proof.
  intros Hbs Hpre Hb. destruct cage as [i r n p m ca t a bs].
  simpl in Hbs. subst bs.
  unfold book_cage, book_cage_body, bind, gets. simpl.
  rewrite (scan_first _ 0 pre b post Hpre Hb). simpl.
  rewrite !alter_at_split. reflexivity.
Qed.

(** The test of the loops, against the condition written out. *)
Lemma covering_test checkin checkout (b : Booking) :
  Booking.check_in_date b <= checkin →
  Booking.check_out_date b >= checkout →
  Booking.guest_snake_id b = None →
  window_test checkin checkout b = true.
Proof. intros H1 H2 H3. apply window_test_true. repeat split; assumption. Qed.

Lemma not_covering_test checkin checkout (ws : list Booking) :
  Forall (λ w, ¬ (Booking.check_in_date w <= checkin
                  ∧ Booking.check_out_date w >= checkout
                  ∧ Booking.guest_snake_id w = None)) ws →
  Forall (λ w, window_test checkin checkout w = false) ws.
Proof.
  intros H. eapply Forall_impl; [exact H|]. intros w Hw.
  destruct (window_test checkin checkout w) eqn:Ht; [|reflexivity].
  apply window_test_true in Ht. destruct (Hw Ht).
Qed.

Lemma test_not_covering checkin checkout (ws : list Booking) :
  Forall (λ w, window_test checkin checkout w = false) ws →
  Forall (λ w, ¬ (Booking.check_in_date w <= checkin
                  ∧ Booking.check_out_date w >= checkout
                  ∧ Booking.guest_snake_id w = None)) ws.
Proof.
  intros H. eapply Forall_impl; [exact H|]. intros w Hw Hc.
  apply window_test_true in Hc. congruence.
Qed.

Lemma replace_by_id_self c collection : c ∈ replace_by_id c collection.
Proof.
  induction collection as [|d collection IH]; simpl.
  - apply elem_of_cons. left. reflexivity.
  - destruct (N.eqb (Cage.id d) (Cage.id c)); apply elem_of_cons.
    + left. reflexivity.
    + right. exact IH.
Qed.

(** [book_cage] on a cage with a first covering window, with the cage it
    leaves written out field by field. *)
Lemma book_cage_books account snake c checkin checkout now db pre b post :
  Cage.bookings c = pre ++ b :: post →
  Forall (λ w, window_test checkin checkout w = false) pre →
  window_test checkin checkout b = true →
  let b' :=
    Booking.mk (Some (Owner.id account)) (Some (Snake.id snake)) (Some now)
      checkin checkout (Booking.review b) (Booking.rating b) in
  let c' :=
    Cage.mk (Cage.id c) (Cage.registered_date c) (Cage.name c)
      (Cage.price c) (Cage.square_meters c) (Cage.is_carpeted c)
      (Cage.has_toys c) (Cage.allow_dangerous_snakes c)
      (pre ++ b' :: post) in
  book_cage account snake c checkin checkout now db
  = (Return (),
     (c', mk_Database (replace_by_id c' (cages db)) (owners db) (snakes db))).
Proof.
  intros Hbs Hpre Hb b' c'.
  rewrite (book_cage_match account snake c checkin checkout now db
             pre b post Hbs Hpre Hb).
  reflexivity.
Qed.

(** ** add_available_date *)

Lemma total_microseconds_of_days (d : Z) :
  datetime.total_microseconds (datetime.normalize d 0 0)
  = d * datetime.us_per_day.
Proof.
  unfold datetime.normalize, datetime.total_microseconds, datetime.us_per_day.
  simpl. rewrite Z.div_0_l, Z.mod_0_l by discriminate. simpl.
  rewrite Z.mod_0_l by discriminate. lia.
Qed.

Lemma timedelta_of_days_in_range (d : Z) :
  -999999999 <= d <= 999999999 →
  datetime.timedelta_of_days d = Some (datetime.normalize d 0 0).
Proof.
  intros H. unfold datetime.timedelta_of_days.
  destruct (Z.leb_spec (Z.abs d) 999999999); [reflexivity | lia].
Qed.

Lemma timedelta_of_days_overflow (d : Z) :
  d < -999999999 ∨ 999999999 < d →
  datetime.timedelta_of_days d = None.
Proof.
  intros H. unfold datetime.timedelta_of_days.
  destruct (Z.leb_spec (Z.abs d) 999999999); [lia | reflexivity].
Qed.

Lemma add_days_in_range (t : datetime) (d : Z) :
  0 <= t + d * datetime.us_per_day < 3652059 * datetime.us_per_day →
  datetime.add t (datetime.normalize d 0 0)
  = Some (t + d * datetime.us_per_day).
Proof.
  intros H. unfold datetime.add. rewrite total_microseconds_of_days.
  unfold datetime.max_days.
  destruct (Z.leb_spec 0 (t + d * datetime.us_per_day)); [|lia].
  destruct (Z.ltb_spec (t + d * datetime.us_per_day)
              (3652059 * datetime.us_per_day)); [reflexivity | lia].
Qed.

Lemma add_days_overflow (t : datetime) (d : Z) :
  t + d * datetime.us_per_day < 0
  ∨ 3652059 * datetime.us_per_day <= t + d * datetime.us_per_day →
  datetime.add t (datetime.normalize d 0 0) = None.
Proof.
  intros H. unfold datetime.add. rewrite total_microseconds_of_days.
  unfold datetime.max_days.
  destruct (Z.leb_spec 0 (t + d * datetime.us_per_day)); [|reflexivity].
  destruct (Z.ltb_spec (t + d * datetime.us_per_day)
              (3652059 * datetime.us_per_day)); [lia | reflexivity].
Qed.

(** [add_available_date] once its dates are computed. *)
Lemma add_available_date_in_range c start_date days db :
  -999999999 <= days <= 999999999 →
  0 <= start_date + days * datetime.us_per_day
    < 3652059 * datetime.us_per_day →
  add_available_date c start_date days db
  = match head (List.filter (QuerySet.id (Cage.id c)) (cages db)) with
    | None => (Raise (AttributeError "NoneType" "bookings"), db)
    | Some stored =>
        let c' :=
          set_bookings
            (Cage.bookings stored
             ++ [Booking.mk None None None start_date
                   (start_date + days * datetime.us_per_day) None 0])
            stored in
        (Return c',
         mk_Database (replace_by_id c' (cages db)) (owners db) (snakes db))
    end.
Proof.
  intros Hdays Hsum. unfold add_available_date, bind, or_raise.
  rewrite (timedelta_of_days_in_range days Hdays). unfold ret at 1.
  rewrite (add_days_in_range start_date days Hsum). unfold ret at 1.
  unfold QuerySet.first, QuerySet.filter, QuerySet.objects, gets.
  destruct (head (List.filter (QuerySet.id (Cage.id c)) (cages db)));
    reflexivity.
Qed.

(** [add_available_date] when its dates overflow: the cage is not even
    fetched. *)
Lemma add_available_date_overflow c start_date days db :
  days < -999999999 ∨ 999999999 < days
  ∨ start_date + days * datetime.us_per_day < 0
  ∨ 3652059 * datetime.us_per_day <= start_date + days * datetime.us_per_day →
  add_available_date c start_date days db = (Raise OverflowError, db).
Proof.
  intros H. unfold add_available_date, bind, or_raise.
  destruct (Z_le_gt_dec (-999999999) days) as [Hlo|Hlo];
    [destruct (Z_le_gt_dec days 999999999) as [Hhi|Hhi]|].
  - rewrite (timedelta_of_days_in_range days (conj Hlo Hhi)). unfold ret at 1.
    rewrite add_days_overflow by lia. reflexivity.
  - rewrite timedelta_of_days_overflow by lia. reflexivity.
  - rewrite timedelta_of_days_overflow by lia. reflexivity.
Qed.

Lemma dates_cases (start_date days : Z) :
  (-999999999 <= days <= 999999999
   ∧ 0 <= start_date + days * datetime.us_per_day
       < 3652059 * datetime.us_per_day)
  ∨ (days < -999999999 ∨ 999999999 < days
     ∨ start_date + days * datetime.us_per_day < 0
     ∨ 3652059 * datetime.us_per_day
       <= start_date + days * datetime.us_per_day).
Proof. lia. Qed.

Lemma first_by_id i before stored after :
  Forall (λ d, Cage.id d ≠ i) before → Cage.id stored = i →
  head (List.filter (QuerySet.id i) (before ++ stored :: after)) = Some stored.
Proof.
  intros Hb Hs. induction Hb as [|d before Hd _ IH]; simpl.
  - unfold QuerySet.id at 1. rewrite Hs, N.eqb_refl. reflexivity.
  - unfold QuerySet.id at 1. apply N.eqb_neq in Hd. rewrite Hd. exact IH.
Qed.

Lemma replace_by_id_split c before stored after :
  Forall (λ d, Cage.id d ≠ Cage.id c) before → Cage.id stored = Cage.id c →
  replace_by_id c (before ++ stored :: after) = before ++ c :: after.
Proof.
  intros Hb Hs. induction Hb as [|d before Hd _ IH]; simpl.
  - rewrite Hs, N.eqb_refl. reflexivity.
  - apply N.eqb_neq in Hd. rewrite Hd, IH. reflexivity.
Qed.

(** ** duration_in_days *)

Lemma duration_in_days_div b :
  Booking.duration_in_days b
  = (Booking.check_out_date b - Booking.check_in_date b) / datetime.us_per_day.
Proof.
  unfold Booking.duration_in_days, datetime.sub, datetime.normalize. simpl.
  unfold datetime.us_per_day.
  rewrite (Z.mul_comm datetime.seconds_per_day).
  rewrite <- Z.div_div by (unfold datetime.us_per_second, datetime.seconds_per_day; lia).
  reflexivity.
Qed.

(** ** Scenarios of the specification *)

(** One window from day 1 to day 10, a request for days 2 to 5: the window
    is booked with the requested dates, and a later query for days 6 to 8
    finds nothing. *)
Example scenario_consumed_window :
  let db := mk_Database [cage_oak] [owner_ada] [snake_slim] in
  ∃ cage' db',
    book_cage owner_ada snake_slim cage_oak (day 2) (day 5) 77 db
    = (Return (), (cage', db'))
    ∧ Cage.bookings cage'
      = [Booking.mk (Some 100%N) (Some 200%N) (Some 77) (day 2) (day 5) None 0]
    ∧ cages db' = [cage']
    ∧ get_available_cages (day 6) (day 8) snake_slim db' = (Return [], db').
Proof.
  eexists _, _. split; [vm_compute; reflexivity|].
  repeat split.
Qed.

(** A venomous snake and a cage closed to dangerous snakes: the cage is not
    returned, whatever its size and windows. *)
Lemma venomous_excluded checkin checkout snake db c result :
  Snake.is_venomous snake = true →
  Cage.allow_dangerous_snakes c = false →
  get_available_cages checkin checkout snake db = (Return result, db) →
  c ∉ result.
Proof.
  intros Hv Ha Hrun Hin.
  destruct (get_available_cages_perm checkin checkout snake db)
    as (result' & Hrun' & Hperm).
  rewrite Hrun in Hrun'. injection Hrun' as <-.
  rewrite Hperm, list_elem_of_In, filter_In in Hin.
  destruct Hin as [_ Hsel]. unfold selects in Hsel.
  rewrite Hv, Ha, andb_false_r in Hsel. discriminate Hsel.
Qed.

Example venomous_excluded_sample :
  get_available_cages (day 2) (day 5) snake_fang db_sample
  = (Return [cage_elm], db_sample).
Proof. vm_compute. reflexivity. Qed.

(** Same price and size: [cage_oak] and [cage_elm] come out in stored
    order, before the dearer [cage_twin]. *)
Example sorted_sample :
  get_available_cages (day 2) (day 5) (Snake.mk 202%N 0 "Boa" "Bo" 1 false)
    db_sample
  = (Return [cage_tiny; cage_oak; cage_elm; cage_twin], db_sample).
Proof. vm_compute. reflexivity. Qed.

(** * The claims *)

(** C1. For every stored cage [c] and every query, [c] is in the list
    [get_available_cages] returns if and only if [c.square_meters >=
    snake.length / 4], the cage allows dangerous snakes whenever the snake
    is venomous, and some window [b] of the cage has [b.check_in_date <=
    checkin], [b.check_out_date >= checkout] and no [guest_snake_id]. *)
Theorem get_available_cages_iff checkin checkout snake db c :
  c ∈ cages db →
  ∃ result,
    get_available_cages checkin checkout snake db = (Return result, db)
    ∧ (c ∈ result ↔
       (Cage.square_meters c >= Snake.length snake / 4)%Q
       ∧ (Snake.is_venomous snake = true →
          Cage.allow_dangerous_snakes c = true)
       ∧ ∃ b, b ∈ Cage.bookings c
              ∧ Booking.check_in_date b <= checkin
              ∧ Booking.check_out_date b >= checkout
              ∧ Booking.guest_snake_id b = None).
Proof.
  intros Hc.
  destruct (get_available_cages_perm checkin checkout snake db)
    as (result & Hrun & Hperm).
  exists result. split; [exact Hrun|].
  fold (available checkin checkout snake c).
  rewrite <- selects_available, Hperm, list_elem_of_In, filter_In,
    <- list_elem_of_In.
  tauto.
Qed.

Lemma get_available_cages_iff_witness :
  cage_oak ∈ cages db_sample
  ∧ ∃ result,
      get_available_cages (day 2) (day 5) snake_slim db_sample
      = (Return result, db_sample)
      ∧ (cage_oak ∈ result ↔
         (Cage.square_meters cage_oak >= Snake.length snake_slim / 4)%Q
         ∧ (Snake.is_venomous snake_slim = true →
            Cage.allow_dangerous_snakes cage_oak = true)
         ∧ ∃ b, b ∈ Cage.bookings cage_oak
                ∧ Booking.check_in_date b <= day 2
                ∧ Booking.check_out_date b >= day 5
                ∧ Booking.guest_snake_id b = None).
Proof.
  assert (H : cage_oak ∈ cages db_sample)
    by (apply list_elem_of_In; simpl; tauto).
  split; [exact H|].
  apply (get_available_cages_iff (day 2) (day 5) snake_slim db_sample cage_oak H).
Defined.

(** C5. The list [get_available_cages] returns is ordered by ascending
    price and, at the same price, by descending square_meters; cages equal
    on both keys come in the order in which they are stored. *)
Theorem get_available_cages_sorted_stable checkin checkout snake db :
  ∃ result,
    get_available_cages checkin checkout snake db = (Return result, db)
    ∧ StronglySorted
        (λ c1 c2,
           (Cage.price c1 < Cage.price c2)%Q
           ∨ (Cage.price c1 == Cage.price c2)%Q
             ∧ (Cage.square_meters c2 <= Cage.square_meters c1)%Q)
        result
    ∧ ∀ c0,
        List.filter (λ c, same_keys c c0) result
        = List.filter (λ c, same_keys c c0)
            (List.filter (selects checkin checkout snake) (cages db)).
Proof.
  eexists. split; [apply get_available_cages_run|]. split.
  - apply filter_StronglySorted.
    apply (Sorted_StronglySorted cheaper_then_larger_trans).
    apply (sort_Sorted QuerySet.price_then_larger cheaper_then_larger
             price_then_larger_true price_then_larger_false).
  - intros c0. rewrite <- candidates_selects.
    rewrite filter_comm.
    rewrite (sort_filter QuerySet.price_then_larger (λ c, same_keys c c0)
               (same_keys_before c0)).
    apply filter_comm.
Qed.

(** C8. [get_available_cages] reads only: the three collections are the
    same after the call as before it, and every cage it returns is a stored
    cage, as it is stored. *)
Theorem get_available_cages_read_only checkin checkout snake db :
  ∃ result,
    get_available_cages checkin checkout snake db = (Return result, db)
    ∧ ∀ c, c ∈ result → c ∈ cages db.
Proof.
  destruct (get_available_cages_perm checkin checkout snake db)
    as (result & Hrun & Hperm).
  exists result. split; [exact Hrun|].
  intros c. rewrite Hperm, !list_elem_of_In, filter_In. tauto.
Qed.

(** C7. A stored cage that meets the size and venom conditions of the
    query and has windows that are open and contain the range, two or more
    or just one, is in the list [get_available_cages] returns exactly once
    (ids being unique in the collection). The loop over its windows ends at
    the first such window in stored order: the windows it has looked at
    are those up to that one, and none after it. *)
Theorem get_available_cages_once checkin checkout snake db c pre b post :
  NoDup (Cage.id <$> cages db) →
  c ∈ cages db →
  (Cage.square_meters c >= Snake.length snake / 4)%Q →
  (Snake.is_venomous snake = true → Cage.allow_dangerous_snakes c = true) →
  Cage.bookings c = pre ++ b :: post →
  Forall (λ w, ¬ (Booking.check_in_date w <= checkin
                  ∧ Booking.check_out_date w >= checkout
                  ∧ Booking.guest_snake_id w = None)) pre →
  Booking.check_in_date b <= checkin →
  Booking.check_out_date b >= checkout →
  Booking.guest_snake_id b = None →
  ∃ result looked_at before after,
    get_available_cages_traced checkin checkout snake db
    = (Return (result, looked_at), db)
    ∧ get_available_cages checkin checkout snake db = (Return result, db)
    ∧ result = before ++ c :: after
    ∧ (c ∉ before) ∧ (c ∉ after)
    ∧ (c, pre ++ [b]) ∈ looked_at
    ∧ ∀ seen, (c, seen) ∈ looked_at → seen = pre ++ [b].
Proof.
  intros Hids Hc Hsize Hvenom Hbs Hpre H1 H2 H3.
  apply not_covering_test in Hpre.
  pose proof (covering_test checkin checkout b H1 H2 H3) as Hb.
  pose proof (get_available_cages_traced_run checkin checkout snake db) as Ht.
  pose proof (get_available_cages_run checkin checkout snake db) as Hrun.
  destruct (get_available_cages_perm checkin checkout snake db)
    as (result & Hrun' & Hperm).
  rewrite Hrun in Hrun'. injection Hrun' as Hres.
  assert (Hscan : snd (scan (window_test checkin checkout) 0 (Cage.bookings c))
                  = pre ++ [b]).
  { rewrite Hbs, (scan_first _ 0 pre b post Hpre Hb). reflexivity. }
  assert (Hin : c ∈ result).
  { rewrite Hperm, list_elem_of_In, filter_In, <- list_elem_of_In.
    split; [exact Hc|]. apply selects_available.
    split; [exact Hsize|]. split; [exact Hvenom|].
    exists b. rewrite Hbs. split; [apply list_elem_of_In, in_elt|].
    repeat split; assumption. }
  assert (Hnd : NoDup result).
  { rewrite Hperm. apply NoDup_ListNoDup, List.NoDup_filter, NoDup_ListNoDup.
    eapply NoDup_fmap_1, Hids. }
  assert (Hsorted : c ∈ QuerySet.sort QuerySet.price_then_larger
                          (candidates checkin checkout snake (cages db))).
  { rewrite <- Hres in Hin. apply list_elem_of_In in Hin.
    apply filter_In in Hin as [Hin _]. apply list_elem_of_In, Hin. }
  apply list_elem_of_split in Hin as (before & after & Hsplit).
  eexists result, _, before, after.
  split; [rewrite Ht, Hres; reflexivity|].
  split; [rewrite Hrun, Hres; reflexivity|].
  split; [exact Hsplit|].
  rewrite Hsplit in Hnd.
  apply NoDup_app in Hnd as (_ & Hba & Hca%NoDup_cons).
  split; [|split; [|split]].
  - intros H. apply (Hba c H). apply list_elem_of_In. left. reflexivity.
  - apply Hca.
  - apply list_elem_of_In, in_map_iff. exists c.
    split; [rewrite Hscan; reflexivity | apply list_elem_of_In, Hsorted].
  - intros seen Hseen. apply list_elem_of_In, in_map_iff in Hseen.
    destruct Hseen as (c0 & Heq & _). injection Heq as -> <-. exact Hscan.
Qed.

Lemma get_available_cages_once_witness :
  ∃ result looked_at before after,
    get_available_cages_traced (day 2) (day 5) snake_slim db_sample
    = (Return (result, looked_at), db_sample)
    ∧ get_available_cages (day 2) (day 5) snake_slim db_sample
      = (Return result, db_sample)
    ∧ result = before ++ cage_twin :: after
    ∧ (cage_twin ∉ before) ∧ (cage_twin ∉ after)
    ∧ (cage_twin, [open_window 8 9] ++ [open_window 1 10]) ∈ looked_at
    ∧ ∀ seen, (cage_twin, seen) ∈ looked_at
              → seen = [open_window 8 9] ++ [open_window 1 10].
Proof.
  apply (get_available_cages_once (day 2) (day 5) snake_slim db_sample
           cage_twin [open_window 8 9] (open_window 1 10) [open_window 0 20]).
  - simpl.
    repeat (constructor;
      [rewrite list_elem_of_In; simpl; intros H; intuition discriminate|]).
    constructor.
  - apply list_elem_of_In. simpl. tauto.
  - vm_compute. discriminate.
  - discriminate.
  - reflexivity.
  - repeat constructor. vm_compute. intros (H & _). apply H. reflexivity.
  - vm_compute. discriminate.
  - vm_compute. discriminate.
  - reflexivity.
Defined.

(** A cage too small for the snake is not returned, whatever its windows:
    [cage_tiny] has two that contain days 2 to 5. *)
Lemma get_available_cages_tiny_absent :
  (window_test (day 2) (day 5) (open_window 1 10) = true
   ∧ window_test (day 2) (day 5) (open_window 0 20) = true
   ∧ Cage.bookings cage_tiny = [open_window 1 10; open_window 0 20]
   ∧ cage_tiny ∈ cages db_sample)
  ∧ ¬ ∃ result db',
        get_available_cages (day 2) (day 5) snake_slim db_sample
        = (Return result, db')
        ∧ cage_tiny ∈ result.
Proof.
  split.
  - repeat split; try reflexivity. apply list_elem_of_In. simpl. tauto.
  - intros (result & db' & Hrun & Hin).
    vm_compute in Hrun. injection Hrun as <- _.
    apply list_elem_of_In in Hin. simpl in Hin.
    destruct Hin as [H | [H | [H | []]]]; discriminate H.
Qed.

(** C2, as the code has it. On a cage none of whose windows passes the
    test, [book_cage] stops at its first assignment through [booking],
    which is [None]: it raises the AttributeError of that access, and the
    cage document and the database are as they were. *)
Theorem book_cage_without_window account snake cage checkin checkout now db :
  (∀ b, b ∈ Cage.bookings cage →
        ¬ (Booking.check_in_date b <= checkin
           ∧ Booking.check_out_date b >= checkout
           ∧ Booking.guest_snake_id b = None)) →
  book_cage account snake cage checkin checkout now db
  = (Raise (AttributeError "NoneType" "guest_owner_id"), (cage, db)).
Proof.
  intros H. apply book_cage_no_match.
  apply Forall_forall. intros b Hb.
  destruct (window_test checkin checkout b) eqn:Ht; [|reflexivity].
  apply window_test_true in Ht. destruct (H b Hb Ht).
Qed.

Lemma book_cage_without_window_witness :
  book_cage owner_ada snake_slim cage_oak (day 5) (day 12) 77 db_sample
  = (Raise (AttributeError "NoneType" "guest_owner_id"), (cage_oak, db_sample)).
Proof.
  apply (book_cage_without_window owner_ada snake_slim cage_oak
           (day 5) (day 12) 77 db_sample).
  intros b Hb (_ & Hout & _).
  apply list_elem_of_In in Hb. simpl in Hb. destruct Hb as [<- | []].
  vm_compute in Hout. apply Hout. reflexivity.
Defined.

(** C2, as stated, fails: the only window of [cage_oak] ends on day 10,
    and booking it up to day 12 does not fail explicitly. *)
Lemma book_cage_failure_not_explicit :
  (∀ b, b ∈ Cage.bookings cage_oak →
        ¬ (Booking.check_in_date b <= day 5
           ∧ Booking.check_out_date b >= day 12
           ∧ Booking.guest_snake_id b = None))
  ∧ ¬ fails_explicitly
        (book_cage owner_ada snake_slim cage_oak (day 5) (day 12) 77 db_sample).
Proof.
  split.
  - intros b Hb (_ & Hout & _).
    apply list_elem_of_In in Hb. simpl in Hb. destruct Hb as [<- | []].
    vm_compute in Hout. apply Hout. reflexivity.
  - intros (e & He & Hm). vm_compute in He. injection He as <-.
    vm_compute in Hm. discriminate Hm.
Qed.

(** C4. On a cage with a window that contains the range and is open,
    [book_cage] rewrites the first such window in stored order where it
    stands: guest owner and guest snake are the ids of the account and the
    snake, the dates are the requested ones, the booking time is set;
    review and rating stay. The other windows and the other fields of the
    cage are kept, no window is added or removed, and the rewritten window
    contains no range while open, so that it matches no later query. The
    cage is saved: it replaces the stored cage of its id, the rest of the
    database staying as it is. *)
Theorem book_cage_first_window account snake cage checkin checkout now db
    pre b post :
  Cage.bookings cage = pre ++ b :: post →
  Forall (λ w, ¬ (Booking.check_in_date w <= checkin
                  ∧ Booking.check_out_date w >= checkout
                  ∧ Booking.guest_snake_id w = None)) pre →
  Booking.check_in_date b <= checkin →
  Booking.check_out_date b >= checkout →
  Booking.guest_snake_id b = None →
  let b' :=
    Booking.mk (Some (Owner.id account)) (Some (Snake.id snake)) (Some now)
      checkin checkout (Booking.review b) (Booking.rating b) in
  let cage' :=
    Cage.mk (Cage.id cage) (Cage.registered_date cage) (Cage.name cage)
      (Cage.price cage) (Cage.square_meters cage) (Cage.is_carpeted cage)
      (Cage.has_toys cage) (Cage.allow_dangerous_snakes cage)
      (pre ++ b' :: post) in
  ∃ db',
    book_cage account snake cage checkin checkout now db
    = (Return (), (cage', db'))
    ∧ Cage.bookings cage' = pre ++ b' :: post
    ∧ length (Cage.bookings cage') = length (Cage.bookings cage)
    ∧ (∀ checkin' checkout',
         ¬ (Booking.check_in_date b' <= checkin'
            ∧ Booking.check_out_date b' >= checkout'
            ∧ Booking.guest_snake_id b' = None)
         ∧ window_test checkin' checkout' b' = false)
    ∧ owners db' = owners db
    ∧ snakes db' = snakes db
    ∧ cage' ∈ cages db'
    ∧ (∀ before stored after,
         cages db = before ++ stored :: after →
         Forall (λ d, Cage.id d ≠ Cage.id cage) before →
         Cage.id stored = Cage.id cage →
         cages db' = before ++ cage' :: after).
Proof.
  intros Hbs Hpre H1 H2 H3 b' cage'.
  apply not_covering_test in Hpre.
  pose proof (covering_test checkin checkout b H1 H2 H3) as Hb.
  eexists. split; [|split; [|split; [|split; [|split; [|split; [|split]]]]]].
  - apply (book_cage_books account snake cage checkin checkout now db
             pre b post Hbs Hpre Hb).
  - reflexivity.
  - rewrite Hbs. simpl. rewrite !length_app. reflexivity.
  - intros ci co. split.
    + intros (_ & _ & H). discriminate H.
    + apply window_test_booked. simpl. eexists; reflexivity.
  - reflexivity.
  - reflexivity.
  - apply replace_by_id_self.
  - intros before stored after Hdb Hbefore Hid. simpl. rewrite Hdb.
    apply replace_by_id_split; assumption.
Qed.

Lemma book_cage_first_window_witness :
  let b' := Booking.mk (Some 100%N) (Some 200%N) (Some 77)
              (day 2) (day 5) None 0 in
  let cage' :=
    Cage.mk 4%N 0 "Twin" 12 3 true false false
      ([open_window 8 9] ++ b' :: [open_window 0 20]) in
  ∃ db',
    book_cage owner_ada snake_slim cage_twin (day 2) (day 5) 77 db_sample
    = (Return (), (cage', db'))
    ∧ Cage.bookings cage' = [open_window 8 9] ++ b' :: [open_window 0 20]
    ∧ length (Cage.bookings cage') = length (Cage.bookings cage_twin)
    ∧ (∀ checkin' checkout',
         ¬ (Booking.check_in_date b' <= checkin'
            ∧ Booking.check_out_date b' >= checkout'
            ∧ Booking.guest_snake_id b' = None)
         ∧ window_test checkin' checkout' b' = false)
    ∧ owners db' = owners db_sample
    ∧ snakes db' = snakes db_sample
    ∧ cage' ∈ cages db'
    ∧ (∀ before stored after,
         cages db_sample = before ++ stored :: after →
         Forall (λ d, Cage.id d ≠ Cage.id cage_twin) before →
         Cage.id stored = Cage.id cage_twin →
         cages db' = before ++ cage' :: after).
Proof.
  apply (book_cage_first_window owner_ada snake_slim cage_twin
           (day 2) (day 5) 77 db_sample
           [open_window 8 9] (open_window 1 10) [open_window 0 20]).
  - reflexivity.
  - repeat constructor. vm_compute. intros (H & _). apply H. reflexivity.
  - vm_compute. discriminate.
  - vm_compute. discriminate.
  - reflexivity.
Defined.

(** C9. [book_cage] tests the windows only. On every cage with an open
    window containing the range it returns and books the first such window
    in stored order, setting guest owner, guest snake, dates and booking
    time, and saves the cage, whatever the size of the cage, the length of
    the snake, and whether the snake is venomous and the cage allows
    that. *)
Theorem book_cage_ignores_size_and_venom account snake cage checkin checkout
    now db :
  (∃ b, b ∈ Cage.bookings cage
        ∧ Booking.check_in_date b <= checkin
        ∧ Booking.check_out_date b >= checkout
        ∧ Booking.guest_snake_id b = None) →
  ∃ pre b post db',
    Cage.bookings cage = pre ++ b :: post
    ∧ Forall (λ w, ¬ (Booking.check_in_date w <= checkin
                      ∧ Booking.check_out_date w >= checkout
                      ∧ Booking.guest_snake_id w = None)) pre
    ∧ (Booking.check_in_date b <= checkin
       ∧ Booking.check_out_date b >= checkout
       ∧ Booking.guest_snake_id b = None)
    ∧ let b' :=
        Booking.mk (Some (Owner.id account)) (Some (Snake.id snake))
          (Some now) checkin checkout (Booking.review b) (Booking.rating b) in
      let cage' :=
        Cage.mk (Cage.id cage) (Cage.registered_date cage) (Cage.name cage)
          (Cage.price cage) (Cage.square_meters cage) (Cage.is_carpeted cage)
          (Cage.has_toys cage) (Cage.allow_dangerous_snakes cage)
          (pre ++ b' :: post) in
      book_cage account snake cage checkin checkout now db
      = (Return (), (cage', db'))
      ∧ cage' ∈ cages db'
      ∧ owners db' = owners db
      ∧ snakes db' = snakes db.
Proof.
  intros (b0 & Hin & Ht).
  destruct (first_split (window_test checkin checkout) (Cage.bookings cage))
    as [Hnone | (pre & b & post & Hbs & Hpre & Hb)].
  - rewrite Forall_forall in Hnone. apply window_test_true in Ht.
    rewrite (Hnone b0 Hin) in Ht. discriminate Ht.
  - exists pre, b, post. eexists.
    split; [exact Hbs|]. split; [apply test_not_covering, Hpre|].
    split; [apply window_test_true, Hb|].
    split; [|split; [|split]].
    + apply (book_cage_books account snake cage checkin checkout now db
               pre b post Hbs Hpre Hb).
    + apply replace_by_id_self.
    + reflexivity.
    + reflexivity.
Qed.

(** [cage_tiny] is too small for [snake_slim] and closed to venomous
    snakes; [book_cage] books its first window for the venomous
    [snake_fang]. *)
Lemma book_cage_ignores_size_and_venom_witness :
  (selects (day 2) (day 5) snake_slim cage_tiny = false
   ∧ (Cage.square_meters cage_tiny < Snake.length snake_slim / 4)%Q
   ∧ Snake.is_venomous snake_fang = true
   ∧ Cage.allow_dangerous_snakes cage_tiny = false)
  ∧ ∃ pre b post db',
      Cage.bookings cage_tiny = pre ++ b :: post
      ∧ Forall (λ w, ¬ (Booking.check_in_date w <= day 2
                        ∧ Booking.check_out_date w >= day 5
                        ∧ Booking.guest_snake_id w = None)) pre
      ∧ (Booking.check_in_date b <= day 2
         ∧ Booking.check_out_date b >= day 5
         ∧ Booking.guest_snake_id b = None)
      ∧ let b' :=
          Booking.mk (Some (Owner.id owner_ada)) (Some (Snake.id snake_fang))
            (Some 77) (day 2) (day 5) (Booking.review b) (Booking.rating b) in
        let cage' :=
          Cage.mk (Cage.id cage_tiny) (Cage.registered_date cage_tiny)
            (Cage.name cage_tiny) (Cage.price cage_tiny)
            (Cage.square_meters cage_tiny) (Cage.is_carpeted cage_tiny)
            (Cage.has_toys cage_tiny) (Cage.allow_dangerous_snakes cage_tiny)
            (pre ++ b' :: post) in
        book_cage owner_ada snake_fang cage_tiny (day 2) (day 5) 77 db_sample
        = (Return (), (cage', db'))
        ∧ cage' ∈ cages db'
        ∧ owners db' = owners db_sample
        ∧ snakes db' = snakes db_sample.
Proof.
  split; [repeat split|].
  apply (book_cage_ignores_size_and_venom owner_ada snake_fang cage_tiny
           (day 2) (day 5) 77 db_sample).
  exists (open_window 1 10). split; [apply list_elem_of_In; left; reflexivity|].
  vm_compute. repeat split; discriminate.
Defined.

(** C3, as the code has it. After a first [book_cage] has booked the first
    window passing the test, a second call for the same range never touches
    that window. When no later window of the cage passes the test, the
    second call raises the AttributeError of the access through [None] and
    changes nothing; otherwise it books the next window that passes. *)
Theorem book_cage_second_call account1 snake1 account2 snake2 cage
    checkin checkout now1 now2 db pre b post :
  Cage.bookings cage = pre ++ b :: post →
  Forall (λ b, window_test checkin checkout b = false) pre →
  window_test checkin checkout b = true →
  let b1 := reserved account1 snake1 checkin checkout now1 b in
  let cage1 := set_bookings (pre ++ b1 :: post) cage in
  let db1 := saved cage1 db in
  ∃ second cage2 db2,
    book_cage_twice account1 snake1 account2 snake2 cage
      checkin checkout now1 now2 db
    = (Return (), (second, (cage2, db2)))
    ∧ Cage.bookings cage2 !! length pre = Some b1
    ∧ (Forall (λ b, window_test checkin checkout b = false) post →
       second = Raise (AttributeError "NoneType" "guest_owner_id")
       ∧ cage2 = cage1 ∧ db2 = db1)
    ∧ (∀ mid b' post',
         post = mid ++ b' :: post' →
         Forall (λ b, window_test checkin checkout b = false) mid →
         window_test checkin checkout b' = true →
         second = Return ()
         ∧ cage2
           = set_bookings
               (pre ++ b1 :: mid
                ++ reserved account2 snake2 checkin checkout now2 b' :: post')
               cage
         ∧ db2 = saved cage2 db1).
Proof.
  intros Hbs Hpre Hb b1 cage1 db1.
  assert (Hb1 : window_test checkin checkout b1 = false)
    by (apply window_test_booked; simpl; eexists; reflexivity).
  unfold book_cage_twice.
  rewrite (book_cage_match account1 snake1 cage checkin checkout now1 db
             pre b post Hbs Hpre Hb).
  fold b1. fold cage1. fold db1.
  destruct (first_split (window_test checkin checkout) post)
    as [Hnone | (mid & b' & post' & Hpost & Hmid & Hb')].
  - (* no later window passes *)
    assert (Hall : Forall (λ b, window_test checkin checkout b = false)
                     (Cage.bookings cage1)).
    { simpl. apply Forall_app. split; [exact Hpre|].
      constructor; assumption. }
    rewrite (book_cage_no_match account2 snake2 cage1 checkin checkout now2
               db1 Hall).
    eexists _, _, _. split; [reflexivity|]. split; [|split].
    + simpl. apply list_lookup_middle. reflexivity.
    + intros _. repeat split.
    + intros mid b' post' -> Hmid Hb'. exfalso.
      apply Forall_app in Hnone as [_ Hnone].
      inversion Hnone; subst. congruence.
  - (* a later window passes *)
    assert (Hbs1 : Cage.bookings cage1 = (pre ++ b1 :: mid) ++ b' :: post').
    { simpl. rewrite Hpost, <- app_assoc. reflexivity. }
    assert (Hpre1 : Forall (λ b, window_test checkin checkout b = false)
                      (pre ++ b1 :: mid)).
    { apply Forall_app. split; [exact Hpre|]. constructor; assumption. }
    rewrite (book_cage_match account2 snake2 cage1 checkin checkout now2 db1
               (pre ++ b1 :: mid) b' post' Hbs1 Hpre1 Hb').
    eexists _, _, _. split; [reflexivity|]. split; [|split].
    + simpl. rewrite <- app_assoc. apply list_lookup_middle. reflexivity.
    + intros Hnone. exfalso. rewrite Hpost in Hnone.
      apply Forall_app in Hnone as [_ Hnone].
      inversion Hnone; subst. congruence.
    + intros mid2 b2 post2 Hpost2 Hmid2 Hb2.
      assert (Heq : mid2 = mid ∧ b2 = b' ∧ post2 = post').
      { rewrite Hpost in Hpost2. clear - Hpost2 Hmid Hmid2 Hb' Hb2.
        revert mid2 Hpost2 Hmid2.
        induction Hmid as [|a mid Ha _ IH]; intros mid2 Hpost2 Hmid2.
        - destruct mid2 as [|a2 mid2]; simpl in Hpost2.
          + injection Hpost2 as -> ->. repeat split.
          + injection Hpost2 as -> _. inversion Hmid2; subst. congruence.
        - destruct mid2 as [|a2 mid2]; simpl in Hpost2.
          + injection Hpost2 as -> _. congruence.
          + injection Hpost2 as -> Hrest. inversion Hmid2; subst.
            destruct (IH mid2 Hrest) as (-> & -> & ->); [assumption|].
            repeat split. }
      destruct Heq as (-> & -> & ->).
      split; [reflexivity|]. split; [|reflexivity].
      unfold cage1. destruct cage. simpl. rewrite <- app_assoc. reflexivity.
Qed.

Lemma book_cage_second_call_witness :
  let b1 := reserved owner_ada snake_slim (day 2) (day 5) 77 (open_window 1 10) in
  let cage1 := set_bookings ([open_window 8 9] ++ b1 :: [open_window 0 20])
                 cage_twin in
  let db1 := saved cage1 db_sample in
  ∃ second cage2 db2,
    book_cage_twice owner_ada snake_slim owner_ada snake_fang cage_twin
      (day 2) (day 5) 77 78 db_sample
    = (Return (), (second, (cage2, db2)))
    ∧ Cage.bookings cage2 !! length [open_window 8 9] = Some b1
    ∧ (Forall (λ b, window_test (day 2) (day 5) b = false) [open_window 0 20] →
       second = Raise (AttributeError "NoneType" "guest_owner_id")
       ∧ cage2 = cage1 ∧ db2 = db1)
    ∧ (∀ mid b' post',
         [open_window 0 20] = mid ++ b' :: post' →
         Forall (λ b, window_test (day 2) (day 5) b = false) mid →
         window_test (day 2) (day 5) b' = true →
         second = Return ()
         ∧ cage2
           = set_bookings
               ([open_window 8 9] ++ b1 :: mid
                ++ reserved owner_ada snake_fang (day 2) (day 5) 78 b' :: post')
               cage_twin
         ∧ db2 = saved cage2 db1).
Proof.
  apply (book_cage_second_call owner_ada snake_slim owner_ada snake_fang
           cage_twin (day 2) (day 5) 77 78 db_sample
           [open_window 8 9] (open_window 1 10) [open_window 0 20]).
  - reflexivity.
  - repeat constructor.
  - reflexivity.
Defined.

(** C3, as stated, fails. [cage_twin] has two open windows covering days 2
    to 5: the second call succeeds, on the other window. [cage_oak] has
    one: the second call fails, and not explicitly. *)
Lemma book_cage_second_call_not_no_availability :
  (window_test (day 2) (day 5) (open_window 1 10) = true
   ∧ ∃ state,
       book_cage_twice owner_ada snake_slim owner_ada snake_fang cage_twin
         (day 2) (day 5) 77 78 db_sample
       = (Return (), (Return (), state)))
  ∧ ¬ fails_explicitly
        (snd (book_cage_twice owner_ada snake_slim owner_ada snake_fang
                cage_oak (day 2) (day 5) 77 78 db_sample)).
Proof.
  split; [split|].
  - reflexivity.
  - eexists. vm_compute. reflexivity.
  - intros (e & He & Hm). vm_compute in He. injection He as <-.
    vm_compute in Hm. discriminate Hm.
Qed.

(** C6. On a stored cage, and for dates the interpreter can compute,
    [add_available_date] appends one open window from [start_date] to
    [start_date] plus [days] days to the windows of the stored document,
    saves it in the place of the stored one and returns it, whatever
    [start_date] and [days] are and whatever windows the cage has. With
    [days = 0] the window has check_in_date = check_out_date, and contains
    no range with [checkin < checkout]. *)
Theorem add_available_date_appends cage start_date days db before stored after :
  cages db = before ++ stored :: after →
  Forall (λ d, Cage.id d ≠ Cage.id cage) before →
  Cage.id stored = Cage.id cage →
  -999999999 <= days <= 999999999 →
  0 <= start_date + days * datetime.us_per_day
    < 3652059 * datetime.us_per_day →
  let window :=
    Booking.mk None None None
      start_date (start_date + days * datetime.us_per_day) None 0 in
  let cage' :=
    Cage.mk (Cage.id stored) (Cage.registered_date stored) (Cage.name stored)
      (Cage.price stored) (Cage.square_meters stored)
      (Cage.is_carpeted stored) (Cage.has_toys stored)
      (Cage.allow_dangerous_snakes stored)
      (Cage.bookings stored ++ [window]) in
  add_available_date cage start_date days db
  = (Return cage',
     mk_Database (before ++ cage' :: after) (owners db) (snakes db))
  ∧ Cage.bookings cage' = Cage.bookings stored ++ [window]
  ∧ (days = 0 →
     Booking.check_in_date window = Booking.check_out_date window
     ∧ ∀ checkin checkout,
         checkin < checkout →
         ¬ (Booking.check_in_date window <= checkin
            ∧ Booking.check_out_date window >= checkout
            ∧ Booking.guest_snake_id window = None)
         ∧ window_test checkin checkout window = false).
Proof.
  intros Hdb Hbefore Hid Hdays Hsum window cage'. split; [|split].
  - rewrite (add_available_date_in_range cage start_date days db Hdays Hsum).
    rewrite Hdb, (first_by_id _ before stored after Hbefore Hid).
    cbv zeta. fold window.
    change (set_bookings (Cage.bookings stored ++ [window]) stored) with cage'.
    rewrite replace_by_id_split; [reflexivity| |].
    + simpl. rewrite Hid. exact Hbefore.
    + reflexivity.
  - reflexivity.
  - intros ->. simpl. split; [lia|].
    intros ci co Hlt.
    assert (Hno : ¬ (start_date <= ci ∧ start_date + 0 * datetime.us_per_day >= co
                     ∧ @None ObjectId = None)) by lia.
    split; [exact Hno|].
    destruct (window_test ci co window) eqn:Ht; [|reflexivity].
    apply window_test_true in Ht. destruct (Hno Ht).
Qed.

Lemma add_available_date_appends_witness :
  let window := Booking.mk None None None (day 30) (day 30 + 0 * datetime.us_per_day) None 0 in
  let cage' :=
    Cage.mk 2%N 0 "Elm" 10 2 false true true
      (Cage.bookings cage_elm ++ [window]) in
  add_available_date cage_elm (day 30) 0 db_sample
  = (Return cage',
     mk_Database ([cage_oak] ++ cage' :: [cage_tiny; cage_twin])
       (owners db_sample) (snakes db_sample))
  ∧ Cage.bookings cage' = Cage.bookings cage_elm ++ [window]
  ∧ (0 = 0 →
     Booking.check_in_date window = Booking.check_out_date window
     ∧ ∀ checkin checkout,
         checkin < checkout →
         ¬ (Booking.check_in_date window <= checkin
            ∧ Booking.check_out_date window >= checkout
            ∧ Booking.guest_snake_id window = None)
         ∧ window_test checkin checkout window = false).
Proof.
  apply (add_available_date_appends cage_elm (day 30) 0 db_sample
           [cage_oak] cage_elm [cage_tiny; cage_twin]).
  - reflexivity.
  - repeat constructor. discriminate.
  - reflexivity.
  - lia.
  - vm_compute. split; [discriminate | reflexivity].
Defined.

(** C10. [duration_in_days] is the floor of the difference
    [check_out_date - check_in_date] counted in days: the whole days it
    holds, a part of a day dropped downwards. Nothing keeps it from being
    negative: it is, as soon as check_out_date comes a day or more before
    check_in_date. *)
Theorem duration_in_days_floor (b : Booking) :
  let d := Booking.duration_in_days b in
  let dt := Booking.check_out_date b - Booking.check_in_date b in
  d * datetime.us_per_day <= dt < (d + 1) * datetime.us_per_day
  ∧ (Booking.check_out_date b + datetime.us_per_day <= Booking.check_in_date b
     → d < 0).
Proof.
  intros d dt. unfold d. rewrite duration_in_days_div. fold dt.
  assert (Hpos : 0 < datetime.us_per_day) by reflexivity.
  pose proof (Z.div_mod dt datetime.us_per_day) as Hdm.
  pose proof (Z.mod_pos_bound dt datetime.us_per_day Hpos) as Hb.
  split; [lia|].
  intros H. apply Z.div_lt_upper_bound; [exact Hpos|]. unfold dt. lia.
Qed.

Lemma duration_in_days_floor_witness :
  let b := Booking.mk None None None (day 3 + 1) (day 1) None 0 in
  Booking.duration_in_days b = -3
  ∧ (-3 * datetime.us_per_day
     <= Booking.check_out_date b - Booking.check_in_date b
     < (-3 + 1) * datetime.us_per_day)
  ∧ (Booking.check_out_date b + datetime.us_per_day <= Booking.check_in_date b
     → Booking.duration_in_days b < 0).
Proof.
  split; [reflexivity|].
  apply (duration_in_days_floor
           (Booking.mk None None None (day 3 + 1) (day 1) None 0)).
Defined.

(** * Further properties *)

(** ** The stored collections *)

Lemma replace_by_id_fresh c collection :
  Forall (λ d, Cage.id d ≠ Cage.id c) collection →
  replace_by_id c collection = collection ++ [c].
Proof.
  induction 1 as [|d collection Hd _ IH]; simpl.
  - reflexivity.
  - apply N.eqb_neq in Hd. rewrite Hd, IH. reflexivity.
Qed.


(** Where ids are unique, a stored cage splits the collection into cages
    of other ids. *)
Lemma stored_split (c : Cage) collection :
  NoDup (Cage.id <$> collection) → c ∈ collection →
  ∃ before after,
    collection = before ++ c :: after
    ∧ Forall (λ d, Cage.id d ≠ Cage.id c) before
    ∧ Forall (λ d, Cage.id d ≠ Cage.id c) after.
Proof.
  intros Hnd Hin. apply list_elem_of_split in Hin as (before & after & ->).
  exists before, after. split; [reflexivity|].
  rewrite fmap_app, fmap_cons in Hnd.
  apply NoDup_app in Hnd as (_ & Hba & Hca%NoDup_cons).
  destruct Hca as [Hca _]. split; apply Forall_forall; intros d Hd Heq.
  - apply (Hba (Cage.id d)).
    + apply list_elem_of_fmap. exists d. split; [reflexivity | exact Hd].
    + rewrite Heq. apply elem_of_cons. left. reflexivity.
  - apply Hca. rewrite <- Heq. apply list_elem_of_fmap.
    exists d. split; [reflexivity | exact Hd].
Qed.


Lemma result_selected checkin checkout snake db result db' c :
  get_available_cages checkin checkout snake db = (Return result, db') →
  c ∈ result →
  c ∈ cages db ∧ selects checkin checkout snake c = true.
Proof.
  intros Hrun Hin.
  destruct (get_available_cages_perm checkin checkout snake db)
    as (result' & Hrun' & Hperm).
  rewrite Hrun in Hrun'. injection Hrun' as <- _.
  rewrite Hperm, list_elem_of_In, filter_In, <- list_elem_of_In in Hin.
  exact Hin.
Qed.

(** ** Finding, then booking *)



(** X2. Once [book_cage] has booked the only window of a stored cage that
    passes the test, the saved database no longer offers that cage for the
    range, to any snake. *)
Theorem booked_cage_not_offered_again account guest c checkin checkout now db
    pre b post snake :
  NoDup (Cage.id <$> cages db) →
  c ∈ cages db →
  Cage.bookings c = pre ++ b :: post →
  Forall (λ b, window_test checkin checkout b = false) pre →
  window_test checkin checkout b = true →
  Forall (λ b, window_test checkin checkout b = false) post →
  let db' := snd (snd (book_cage account guest c checkin checkout now db)) in
  ∃ result,
    get_available_cages checkin checkout snake db' = (Return result, db')
    ∧ ∀ d, d ∈ result → Cage.id d ≠ Cage.id c.
Proof.
  intros Hnd Hc Hbs Hpre Hb Hpost.
  rewrite (book_cage_match account guest c checkin checkout now db
             pre b post Hbs Hpre Hb). simpl.
  set (b1 := reserved account guest checkin checkout now b).
  set (c1 := set_bookings (pre ++ b1 :: post) c).
  destruct (stored_split c (cages db) Hnd Hc)
    as (before & after & Hdb & Hbefore & Hafter).
  assert (Hcages : cages (saved c1 db) = before ++ c1 :: after).
  { unfold saved, save, modify. simpl. rewrite Hdb.
    apply replace_by_id_split; [exact Hbefore | reflexivity]. }
  destruct (get_available_cages_perm checkin checkout snake (saved c1 db))
    as (result & Hrun & Hperm).
  exists result. split; [exact Hrun|].
  intros d Hd.
  rewrite Hperm, list_elem_of_In, filter_In, <- list_elem_of_In, Hcages in Hd.
  destruct Hd as [Hd Hsel].
  apply elem_of_app in Hd as [Hd | Hd].
  - rewrite Forall_forall in Hbefore. apply Hbefore, Hd.
  - apply elem_of_cons in Hd as [-> | Hd].
    + exfalso. unfold selects in Hsel.
      apply andb_true_iff in Hsel as [_ Hex].
      apply existsb_exists in Hex as (w & Hw & Ht).
      assert (Hall : Forall (λ b, window_test checkin checkout b = false)
                       (Cage.bookings c1)).
      { simpl. apply Forall_app. split; [exact Hpre|].
        constructor; [|exact Hpost].
        apply window_test_booked. simpl. eexists; reflexivity. }
      rewrite Forall_forall in Hall.
      rewrite (Hall w) in Ht; [discriminate Ht|]. apply list_elem_of_In, Hw.
    + rewrite Forall_forall in Hafter. apply Hafter, Hd.
Qed.

Lemma booked_cage_not_offered_again_witness :
  let db' :=
    snd (snd (book_cage owner_ada snake_slim cage_oak (day 2) (day 5) 77
                db_sample)) in
  ∃ result,
    get_available_cages (day 2) (day 5) snake_slim db' = (Return result, db')
    ∧ ∀ d, d ∈ result → Cage.id d ≠ Cage.id cage_oak.
Proof.
  apply (booked_cage_not_offered_again owner_ada snake_slim cage_oak
           (day 2) (day 5) 77 db_sample [] (open_window 1 10) [] snake_slim).
  - simpl.
    repeat (constructor;
      [rewrite list_elem_of_In; simpl; intros H; intuition discriminate|]).
    constructor.
  - apply list_elem_of_In. simpl. tauto.
  - reflexivity.
  - constructor.
  - reflexivity.
  - constructor.
Defined.

(** The two ways [book_cage] ends. *)
Lemma book_cage_cases account guest c checkin checkout now db :
  (Forall (λ b, window_test checkin checkout b = false) (Cage.bookings c)
   ∧ book_cage account guest c checkin checkout now db
     = (Raise (AttributeError "NoneType" "guest_owner_id"), (c, db)))
  ∨ ∃ pre b post,
      Cage.bookings c = pre ++ b :: post
      ∧ Forall (λ b, window_test checkin checkout b = false) pre
      ∧ window_test checkin checkout b = true
      ∧ let c' :=
          set_bookings
            (pre ++ reserved account guest checkin checkout now b :: post) c in
        book_cage account guest c checkin checkout now db
        = (Return (), (c', saved c' db)).
Proof.
  destruct (first_split (window_test checkin checkout) (Cage.bookings c))
    as [Hnone | (pre & b & post & Hbs & Hpre & Hb)].
  - left. split; [exact Hnone|]. apply book_cage_no_match, Hnone.
  - right. exists pre, b, post. repeat split; try assumption.
    apply (book_cage_match account guest c checkin checkout now db
             pre b post Hbs Hpre Hb).
Qed.



(** X4. A [book_cage] that returns takes exactly one open window of the
    cage: the cage has one open window fewer than before. *)
Theorem book_cage_takes_one_window account guest c checkin checkout now db :
  fst (book_cage account guest c checkin checkout now db) = Return () →
  let c' := fst (snd (book_cage account guest c checkin checkout now db)) in
  (length (List.filter is_open (Cage.bookings c'))
   + 1 = length (List.filter is_open (Cage.bookings c)))%nat.
Proof.
  destruct (book_cage_cases account guest c checkin checkout now db)
    as [[_ ->] | (pre & b & post & Hbs & _ & Hb & ->)]; simpl.
  - discriminate.
  - intros _. rewrite Hbs, !List.filter_app. simpl.
    apply window_test_true in Hb as (_ & _ & Hopen).
    assert (Hb : is_open b = true) by (unfold is_open; rewrite Hopen; reflexivity).
    rewrite Hb, !length_app. simpl. lia.
Qed.

Lemma book_cage_takes_one_window_witness :
  let c' := fst (snd (book_cage owner_ada snake_slim cage_twin (day 2) (day 5)
                        77 db_sample)) in
  (length (List.filter is_open (Cage.bookings c'))
   + 1 = length (List.filter is_open (Cage.bookings cage_twin)))%nat.
Proof.
  apply (book_cage_takes_one_window owner_ada snake_slim cage_twin
           (day 2) (day 5) 77 db_sample).
  reflexivity.
Defined.

(** ** Reserved fields go together *)

Lemma replace_by_id_Forall (P : Cage → Prop) c collection :
  P c → Forall P collection → Forall P (replace_by_id c collection).
Proof.
  intros Hc. induction 1 as [|d collection Hd Hrest IH]; simpl.
  - repeat constructor. exact Hc.
  - destruct (N.eqb (Cage.id d) (Cage.id c)); constructor; assumption.
Qed.

Lemma reserved_consistent account guest checkin checkout now b :
  window_consistent (reserved account guest checkin checkout now b).
Proof.
  unfold window_consistent. simpl. split; split; intros _; eexists; reflexivity.
Qed.

(** X5. Guest owner, guest snake and booking time are set together or not
    at all, in every window of every stored cage: [book_cage] on a cage
    with such windows, [add_available_date] and [register_cage] keep the
    database that way, whether they return or raise. *)
Theorem writers_keep_windows_consistent db :
  database_consistent db →
  (∀ account guest c checkin checkout now,
     Forall window_consistent (Cage.bookings c) →
     database_consistent
       (snd (snd (book_cage account guest c checkin checkout now db))))
  ∧ (∀ c start_date days,
       database_consistent (snd (add_available_date c start_date days db)))
  ∧ (∀ account name allow_dangerous has_toys carpeted meters price new_id now,
       database_consistent
         (snd (register_cage account name allow_dangerous has_toys carpeted
                 meters price new_id now db))).
Proof.
  intros Hdb. split; [|split].
  - intros account guest c checkin checkout now Hc.
    destruct (book_cage_cases account guest c checkin checkout now db)
      as [[_ ->] | (pre & b & post & Hbs & _ & _ & ->)]; simpl.
    + exact Hdb.
    + apply replace_by_id_Forall; [|exact Hdb]. simpl.
      rewrite Hbs in Hc. apply Forall_app in Hc as [Hpre Hrest].
      apply Forall_app. split; [exact Hpre|].
      inversion Hrest; subst. constructor; [|assumption].
      apply reserved_consistent.
  - intros c start_date days.
    destruct (dates_cases start_date days) as [[Hdays Hsum] | Hover];
      [|rewrite (add_available_date_overflow c start_date days db Hover);
        exact Hdb].
    rewrite (add_available_date_in_range c start_date days db Hdays Hsum).
    destruct (head (List.filter (QuerySet.id (Cage.id c)) (cages db)))
      as [stored|] eqn:Hfirst; simpl; [|exact Hdb].
    apply replace_by_id_Forall; [|exact Hdb]. simpl.
    assert (Hin : stored ∈ cages db).
    { destruct (List.filter (QuerySet.id (Cage.id c)) (cages db))
        as [|x l] eqn:Hf; [discriminate Hfirst|].
      injection Hfirst as ->.
      assert (H : In stored (List.filter (QuerySet.id (Cage.id c)) (cages db)))
        by (rewrite Hf; left; reflexivity).
      apply filter_In in H as [H _]. apply list_elem_of_In, H. }
    apply Forall_app. split.
    + unfold database_consistent in Hdb. rewrite Forall_forall in Hdb.
      apply Hdb, Hin.
    + repeat constructor; simpl; intros [x Hx]; discriminate Hx.
  - intros account name allow_dangerous has_toys carpeted meters price
      new_id now.
    assert (Hsaved : database_consistent
              (snd (save (Cage.mk new_id now name price meters carpeted
                            has_toys allow_dangerous []) db))).
    { simpl. apply replace_by_id_Forall; [constructor | exact Hdb]. }
    unfold register_cage, bind, find_account_by_email, gets. simpl.
    destruct (head (List.filter _ (owners db))); simpl; exact Hsaved.
Qed.

Lemma writers_keep_windows_consistent_witness :
  database_consistent
    (snd (snd (book_cage owner_ada snake_slim cage_twin (day 2) (day 5) 77
                 db_sample))).
Proof.
  assert (Hopen : ∀ a b, window_consistent (open_window a b)).
  { intros a b. split; split; intros [x Hx]; discriminate Hx. }
  assert (Hdb : database_consistent db_sample).
  { repeat constructor; apply Hopen. }
  apply (writers_keep_windows_consistent db_sample Hdb).
  repeat constructor; apply Hopen.
Defined.

(** ** Offering, then finding *)

Lemma add_available_date_stored c start_date days db before stored after :
  cages db = before ++ stored :: after →
  Forall (λ d, Cage.id d ≠ Cage.id c) before →
  Cage.id stored = Cage.id c →
  -999999999 <= days <= 999999999 →
  0 <= start_date + days * datetime.us_per_day
    < 3652059 * datetime.us_per_day →
  let window :=
    Booking.mk None None None
      start_date (start_date + days * datetime.us_per_day) None 0 in
  let c' :=
    Cage.mk (Cage.id stored) (Cage.registered_date stored) (Cage.name stored)
      (Cage.price stored) (Cage.square_meters stored)
      (Cage.is_carpeted stored) (Cage.has_toys stored)
      (Cage.allow_dangerous_snakes stored)
      (Cage.bookings stored ++ [window]) in
  add_available_date c start_date days db
  = (Return c', mk_Database (before ++ c' :: after) (owners db) (snakes db)).
Proof.
  intros Hdb Hbefore Hid Hdays Hsum window c'.
  rewrite (add_available_date_in_range c start_date days db Hdays Hsum).
  rewrite Hdb, (first_by_id _ before stored after Hbefore Hid).
  cbv zeta. fold window.
  change (set_bookings (Cage.bookings stored ++ [window]) stored) with c'.
  rewrite replace_by_id_split; [reflexivity| |].
  - simpl. rewrite Hid. exact Hbefore.
  - reflexivity.
Qed.

(** X6. A window added to a stored cage is found. For a [start_date] on a
    whole millisecond and dates the interpreter can compute, after
    [add_available_date(cage, start_date, days)], [get_available_cages]
    returns the cage, with the new window as its last, for every range
    within the window and every snake the cage is large enough for and
    allowed to host. *)
Theorem added_window_is_found c start_date days db before stored after
    checkin checkout snake :
  cages db = before ++ stored :: after →
  Forall (λ d, Cage.id d ≠ Cage.id c) before →
  Cage.id stored = Cage.id c →
  start_date mod 1000 = 0 →
  -999999999 <= days <= 999999999 →
  0 <= start_date + days * datetime.us_per_day
    < 3652059 * datetime.us_per_day →
  start_date <= checkin →
  checkout <= start_date + days * datetime.us_per_day →
  (Cage.square_meters stored >= Snake.length snake / 4)%Q →
  (Snake.is_venomous snake = true →
   Cage.allow_dangerous_snakes stored = true) →
  ∃ c' db' result,
    add_available_date c start_date days db = (Return c', db')
    ∧ Cage.bookings c'
      = Cage.bookings stored
        ++ [Booking.mk None None None start_date
              (start_date + days * datetime.us_per_day) None 0]
    ∧ get_available_cages checkin checkout snake db' = (Return result, db')
    ∧ c' ∈ result.
Proof.
  intros Hdb Hbefore Hid _ Hdays Hsum Hin Hout Hsize Hvenom.
  eexists _, _.
  destruct (get_available_cages_perm checkin checkout snake
              (mk_Database
                 (before
                  ++ Cage.mk (Cage.id stored) (Cage.registered_date stored)
                       (Cage.name stored) (Cage.price stored)
                       (Cage.square_meters stored) (Cage.is_carpeted stored)
                       (Cage.has_toys stored)
                       (Cage.allow_dangerous_snakes stored)
                       (Cage.bookings stored
                        ++ [Booking.mk None None None start_date
                              (start_date + days * datetime.us_per_day)
                              None 0]) :: after)
                 (owners db) (snakes db)))
    as (result & Hrun & Hperm).
  exists result. split; [|split; [|split]].
  - apply (add_available_date_stored c start_date days db before stored after
             Hdb Hbefore Hid Hdays Hsum).
  - reflexivity.
  - exact Hrun.
  - rewrite Hperm, list_elem_of_In, filter_In, <- list_elem_of_In. split.
    + simpl. apply elem_of_app. right. apply elem_of_cons. left. reflexivity.
    + apply selects_available. split; [exact Hsize|]. split; [exact Hvenom|].
      eexists. split.
      * simpl. apply elem_of_app. right. apply elem_of_cons. left. reflexivity.
      * simpl. repeat split; lia.
Qed.

Lemma added_window_is_found_witness :
  ∃ c' db' result,
    add_available_date cage_oak (day 30) 7 db_sample = (Return c', db')
    ∧ Cage.bookings c'
      = Cage.bookings cage_oak
        ++ [Booking.mk None None None (day 30)
              (day 30 + 7 * datetime.us_per_day) None 0]
    ∧ get_available_cages (day 31) (day 33) snake_slim db' = (Return result, db')
    ∧ c' ∈ result.
Proof.
  apply (added_window_is_found cage_oak (day 30) 7 db_sample
           [] cage_oak [cage_elm; cage_tiny; cage_twin]
           (day 31) (day 33) snake_slim).
  - reflexivity.
  - constructor.
  - reflexivity.
  - reflexivity.
  - lia.
  - vm_compute. split; [discriminate | reflexivity].
  - vm_compute. discriminate.
  - vm_compute. discriminate.
  - vm_compute. discriminate.
  - discriminate.
Defined.

(** X7. On a cage whose id is not stored, [add_available_date] raises and
    the database is as it was: the AttributeError of reading [bookings] on
    [None] when the dates can be computed, and the OverflowError of the
    date arithmetic, raised before the cage is looked up, when they
    cannot. *)
Theorem add_available_date_unknown_cage c start_date days db :
  Forall (λ d, Cage.id d ≠ Cage.id c) (cages db) →
  (-999999999 <= days <= 999999999 →
   0 <= start_date + days * datetime.us_per_day
     < 3652059 * datetime.us_per_day →
   add_available_date c start_date days db
   = (Raise (AttributeError "NoneType" "bookings"), db))
  ∧ (days < -999999999 ∨ 999999999 < days
     ∨ start_date + days * datetime.us_per_day < 0
     ∨ 3652059 * datetime.us_per_day
       <= start_date + days * datetime.us_per_day →
     add_available_date c start_date days db = (Raise OverflowError, db)).
Proof.
  intros Hall. split.
  - intros Hdays Hsum.
    rewrite (add_available_date_in_range c start_date days db Hdays Hsum).
    assert (Hnone : List.filter (QuerySet.id (Cage.id c)) (cages db) = []).
    { induction Hall as [|d l Hd _ IH]; simpl; [reflexivity|].
      unfold QuerySet.id at 1. apply N.eqb_neq in Hd. rewrite Hd. exact IH. }
    rewrite Hnone. reflexivity.
  - apply add_available_date_overflow.
Qed.

Lemma add_available_date_unknown_cage_witness :
  (-999999999 <= 7 <= 999999999 →
   0 <= day 30 + 7 * datetime.us_per_day < 3652059 * datetime.us_per_day →
   add_available_date (Cage.mk 9%N 0 "Ash" 10 2 true true false [])
     (day 30) 7 db_sample
   = (Raise (AttributeError "NoneType" "bookings"), db_sample))
  ∧ (7 < -999999999 ∨ 999999999 < 7
     ∨ day 30 + 7 * datetime.us_per_day < 0
     ∨ 3652059 * datetime.us_per_day <= day 30 + 7 * datetime.us_per_day →
     add_available_date (Cage.mk 9%N 0 "Ash" 10 2 true true false [])
       (day 30) 7 db_sample
     = (Raise OverflowError, db_sample)).
Proof.
  apply (add_available_date_unknown_cage
           (Cage.mk 9%N 0 "Ash" 10 2 true true false []) (day 30) 7 db_sample).
  repeat constructor; discriminate.
Defined.

(** X8. The window [add_available_date(cage, start_date, days)] appends to
    a stored cage lasts [days] days, as [duration_in_days] counts them, for
    every [days] the interpreter can compute the dates of, zero and
    negative ones included. *)
Theorem added_window_duration c start_date days db before stored after :
  cages db = before ++ stored :: after →
  Forall (λ d, Cage.id d ≠ Cage.id c) before →
  Cage.id stored = Cage.id c →
  -999999999 <= days <= 999999999 →
  0 <= start_date + days * datetime.us_per_day
    < 3652059 * datetime.us_per_day →
  ∃ c' db' window,
    add_available_date c start_date days db = (Return c', db')
    ∧ Cage.bookings c' = Cage.bookings stored ++ [window]
    ∧ Booking.check_in_date window = start_date
    ∧ Booking.duration_in_days window = days.
Proof.
  intros Hdb Hbefore Hid Hdays Hsum. eexists _, _, _. split; [|split; [|split]].
  - apply (add_available_date_stored c start_date days db before stored after
             Hdb Hbefore Hid Hdays Hsum).
  - reflexivity.
  - reflexivity.
  - rewrite duration_in_days_div. simpl.
    replace (start_date + days * datetime.us_per_day - start_date)
      with (days * datetime.us_per_day) by lia.
    apply Z.div_mul. discriminate.
Qed.

Lemma added_window_duration_witness :
  ∃ c' db' window,
    add_available_date cage_oak (day 30) (-3) db_sample = (Return c', db')
    ∧ Cage.bookings c' = Cage.bookings cage_oak ++ [window]
    ∧ Booking.check_in_date window = day 30
    ∧ Booking.duration_in_days window = -3.
Proof.
  apply (added_window_duration cage_oak (day 30) (-3) db_sample
           [] cage_oak [cage_elm; cage_tiny; cage_twin]).
  - reflexivity.
  - constructor.
  - reflexivity.
  - lia.
  - vm_compute. split; [discriminate | reflexivity].
Defined.

(** X9. [duration_in_days] is negative exactly when check_out_date comes
    before check_in_date, by however little. *)
Theorem duration_in_days_negative (b : Booking) :
  Booking.duration_in_days b < 0
  ↔ Booking.check_out_date b < Booking.check_in_date b.
Proof.
  rewrite duration_in_days_div.
  assert (Hpos : 0 < datetime.us_per_day) by reflexivity.
  split; intros H.
  - apply Z.nle_gt. intros Hle. apply Z.nle_gt in H. apply H.
    apply Z.div_pos; [lia | exact Hpos].
  - apply Z.div_lt_upper_bound; [exact Hpos | lia].
Qed.

(** ** More on get_available_cages *)

(** X10. A cage returned for a range is returned for every range inside
    it, to the same snake. *)
Theorem get_available_cages_narrower checkin checkout checkin' checkout'
    snake db result db1 c :
  get_available_cages checkin checkout snake db = (Return result, db1) →
  c ∈ result →
  checkin <= checkin' →
  checkout' <= checkout →
  ∃ result',
    get_available_cages checkin' checkout' snake db = (Return result', db)
    ∧ c ∈ result'.
Proof.
  intros Hrun Hin Hci Hco.
  destruct (result_selected _ _ _ _ _ _ _ Hrun Hin) as [Hc Hsel].
  destruct (get_available_cages_perm checkin' checkout' snake db)
    as (result' & Hrun' & Hperm).
  exists result'. split; [exact Hrun'|].
  rewrite Hperm, list_elem_of_In, filter_In, <- list_elem_of_In.
  split; [exact Hc|].
  apply selects_available. apply selects_available in Hsel.
  destruct Hsel as (Hsize & Hvenom & b & Hb & H1 & H2 & H3).
  split; [exact Hsize|]. split; [exact Hvenom|].
  exists b. repeat split; try assumption; lia.
Qed.

Lemma get_available_cages_narrower_witness :
  ∃ result',
    get_available_cages (day 3) (day 4) snake_slim db_sample
    = (Return result', db_sample)
    ∧ cage_twin ∈ result'.
Proof.
  apply (get_available_cages_narrower (day 2) (day 5) (day 3) (day 4)
           snake_slim db_sample [cage_oak; cage_elm; cage_twin] db_sample
           cage_twin).
  - vm_compute. reflexivity.
  - apply list_elem_of_In. simpl. tauto.
  - vm_compute. discriminate.
  - vm_compute. discriminate.
Defined.

Lemma filter_fmap_NoDup {A B} (f : A → B) (p : A → bool) (l : list A) :
  NoDup (f <$> l) → NoDup (f <$> List.filter p l).
Proof.
  induction l as [|a l IH]; simpl; intros Hnd.
  - constructor.
  - apply NoDup_cons in Hnd as [Ha Hnd].
    destruct (p a); simpl; [|apply IH, Hnd].
    apply NoDup_cons. split; [|apply IH, Hnd].
    intros Hin. apply Ha.
    apply list_elem_of_fmap in Hin as (x & -> & Hx).
    apply list_elem_of_fmap. exists x. split; [reflexivity|].
    apply list_elem_of_In. apply list_elem_of_In in Hx.
    apply filter_In in Hx. tauto.
Qed.

(** X11. Where the ids of the stored cages are unique, no two cages
    [get_available_cages] returns have the same id. *)
Theorem get_available_cages_distinct checkin checkout snake db :
  NoDup (Cage.id <$> cages db) →
  ∃ result,
    get_available_cages checkin checkout snake db = (Return result, db)
    ∧ NoDup (Cage.id <$> result).
Proof.
  intros Hnd.
  destruct (get_available_cages_perm checkin checkout snake db)
    as (result & Hrun & Hperm).
  exists result. split; [exact Hrun|].
  rewrite Hperm. apply filter_fmap_NoDup, Hnd.
Qed.

Lemma get_available_cages_distinct_witness :
  ∃ result,
    get_available_cages (day 2) (day 5) snake_slim db_sample
    = (Return result, db_sample)
    ∧ NoDup (Cage.id <$> result).
Proof.
  apply (get_available_cages_distinct (day 2) (day 5) snake_slim db_sample).
  simpl.
  repeat (constructor;
    [rewrite list_elem_of_In; simpl; intros H; intuition discriminate|]).
  constructor.
Defined.

(** ** Accounts *)

Lemma filter_none {A} (p : A → bool) l :
  Forall (λ x, p x = false) l → List.filter p l = [].
Proof.
  induction 1 as [|x l Hx _ IH]; simpl; [reflexivity|].
  rewrite Hx. exact IH.
Qed.

Lemma head_filter_first {A} (p : A → bool) before x after :
  Forall (λ x, p x = false) before → p x = true →
  head (List.filter p (before ++ x :: after)) = Some x.
Proof.
  intros Hb Hx. rewrite List.filter_app, (filter_none p before Hb). simpl.
  rewrite Hx. reflexivity.
Qed.

Lemma head_filter_cases {A} (p : A → bool) l :
  (Forall (λ x, p x = false) l ∧ head (List.filter p l) = None)
  ∨ ∃ before x after,
      l = before ++ x :: after
      ∧ Forall (λ x, p x = false) before ∧ p x = true
      ∧ head (List.filter p l) = Some x.
Proof.
  induction l as [|a l IH]; simpl.
  - left. split; [constructor | reflexivity].
  - destruct (p a) eqn:Ha.
    + right. exists [], a, l. repeat split; [constructor | exact Ha].
    + destruct IH as [[Hall Hnone] | (before & x & after & -> & Hb & Hx & Hh)].
      * left. split; [constructor; assumption | exact Hnone].
      * right. exists (a :: before), x, after.
        repeat split; [constructor; assumption | exact Hx | exact Hh].
Qed.

Lemma email_differs_eqb email (l : list Owner) :
  Forall (λ o, Owner.email o ≠ email) l →
  Forall (λ o, String.eqb (Owner.email o) email = false) l.
Proof.
  intros H. eapply Forall_impl; [exact H|]. intros o. apply String.eqb_neq.
Qed.

Lemma owner_id_differs_eqb i (l : list Owner) :
  Forall (λ o, Owner.id o ≠ i) l →
  Forall (λ o, N.eqb (Owner.id o) i = false) l.
Proof.
  intros H. eapply Forall_impl; [exact H|]. intros o. apply N.eqb_neq.
Qed.

Lemma replace_owner_by_id_fresh o collection :
  Forall (λ d, Owner.id d ≠ Owner.id o) collection →
  replace_owner_by_id o collection = collection ++ [o].
Proof.
  induction 1 as [|d collection Hd _ IH]; simpl.
  - reflexivity.
  - apply N.eqb_neq in Hd. rewrite Hd, IH. reflexivity.
Qed.

Lemma replace_owner_by_id_split o before stored after :
  Forall (λ d, Owner.id d ≠ Owner.id o) before → Owner.id stored = Owner.id o →
  replace_owner_by_id o (before ++ stored :: after) = before ++ o :: after.
Proof.
  intros Hb Hs. induction Hb as [|d before Hd _ IH]; simpl.
  - rewrite Hs, N.eqb_refl. reflexivity.
  - apply N.eqb_neq in Hd. rewrite Hd, IH. reflexivity.
Qed.

Lemma replace_snake_by_id_fresh s collection :
  Forall (λ d, Snake.id d ≠ Snake.id s) collection →
  replace_snake_by_id s collection = collection ++ [s].
Proof.
  induction 1 as [|d collection Hd _ IH]; simpl.
  - reflexivity.
  - apply N.eqb_neq in Hd. rewrite Hd, IH. reflexivity.
Qed.

(** The two results of [find_account_by_email]. *)
Lemma find_account_by_email_cases email db :
  (Forall (λ o, Owner.email o ≠ email) (owners db)
   ∧ find_account_by_email email db = (Return None, db))
  ∨ ∃ before account after,
      owners db = before ++ account :: after
      ∧ Forall (λ o, Owner.email o ≠ email) before
      ∧ Owner.email account = email
      ∧ find_account_by_email email db = (Return (Some account), db).
Proof.
  unfold find_account_by_email, gets.
  destruct (head_filter_cases (λ o, String.eqb (Owner.email o) email)
              (owners db))
    as [[Hall ->] | (before & x & after & Hdb & Hb & Hx & ->)].
  - left. split; [|reflexivity].
    eapply Forall_impl; [exact Hall|]. intros o. apply String.eqb_neq.
  - right. exists before, x, after. split; [exact Hdb|]. split; [|split].
    + eapply Forall_impl; [exact Hb|]. intros o. apply String.eqb_neq.
    + apply String.eqb_eq, Hx.
    + reflexivity.
Qed.

Lemma find_account_by_email_at email db before account after :
  owners db = before ++ account :: after →
  Forall (λ o, Owner.email o ≠ email) before →
  Owner.email account = email →
  find_account_by_email email db = (Return (Some account), db).
Proof.
  intros Hdb Hb He. unfold find_account_by_email, gets. rewrite Hdb.
  rewrite (head_filter_first _ before account after).
  - reflexivity.
  - apply email_differs_eqb, Hb.
  - apply String.eqb_eq, He.
Qed.

Lemma find_account_by_email_none email db :
  Forall (λ o, Owner.email o ≠ email) (owners db) →
  find_account_by_email email db = (Return None, db).
Proof.
  intros Hall. unfold find_account_by_email, gets.
  rewrite (filter_none _ _ (email_differs_eqb _ _ Hall)). reflexivity.
Qed.

(** X12. [find_account_by_email] returns the first stored account with
    that email, and [None] exactly when no stored account has it; it
    changes nothing. *)
Theorem find_account_by_email_first email db :
  ∃ found,
    find_account_by_email email db = (Return found, db)
    ∧ match found with
      | Some account =>
          ∃ before after,
            owners db = before ++ account :: after
            ∧ Forall (λ o, Owner.email o ≠ email) before
            ∧ Owner.email account = email
      | None => Forall (λ o, Owner.email o ≠ email) (owners db)
      end.
Proof.
  destruct (find_account_by_email_cases email db)
    as [[Hall ->] | (before & x & after & Hdb & Hb & Hx & ->)];
    eexists; (split; [reflexivity|]).
  - exact Hall.
  - exists before, after. repeat split; assumption.
Qed.

(** X13. An account created under an email no stored account has is the
    one [find_account_by_email] returns for that email afterwards; the
    account is added after the stored ones, with no snake and no cage. *)
Theorem create_account_then_find name email new_id now db :
  Forall (λ o, Owner.id o ≠ new_id) (owners db) →
  Forall (λ o, Owner.email o ≠ email) (owners db) →
  let owner := Owner.mk new_id now name email [] [] in
  ∃ db',
    create_account name email new_id now db = (Return owner, db')
    ∧ owners db' = owners db ++ [owner]
    ∧ cages db' = cages db
    ∧ snakes db' = snakes db
    ∧ find_account_by_email email db' = (Return (Some owner), db').
Proof.
  intros Hid Hemail owner.
  assert (Hsave : replace_owner_by_id owner (owners db) = owners db ++ [owner])
    by (apply replace_owner_by_id_fresh, Hid).
  exists (mk_Database (cages db) (owners db ++ [owner]) (snakes db)).
  split; [|repeat split].
  - unfold create_account, bind, save_owner, modify, ret. fold owner.
    rewrite Hsave. reflexivity.
  - apply (find_account_by_email_at email _ (owners db) owner []).
    + reflexivity.
    + exact Hemail.
    + reflexivity.
Qed.

Lemma create_account_then_find_witness :
  let owner := Owner.mk 101%N 5 "Bob" "bob@example.org" [] [] in
  ∃ db',
    create_account "Bob" "bob@example.org" 101%N 5 db_sample = (Return owner, db')
    ∧ owners db' = owners db_sample ++ [owner]
    ∧ cages db' = cages db_sample
    ∧ snakes db' = snakes db_sample
    ∧ find_account_by_email "bob@example.org" db' = (Return (Some owner), db').
Proof.
  apply (create_account_then_find "Bob" "bob@example.org" 101%N 5 db_sample).
  - repeat constructor. discriminate.
  - repeat constructor. discriminate.
Defined.

(** X14. [create_account] does not look at the stored emails: under an
    email a stored account has already, the new account is stored after
    the stored ones all the same, and [find_account_by_email] goes on
    returning the first stored account with that email. *)
Theorem create_account_same_email name email new_id now db before old after :
  Forall (λ o, Owner.id o ≠ new_id) (owners db) →
  owners db = before ++ old :: after →
  Forall (λ o, Owner.email o ≠ email) before →
  Owner.email old = email →
  let owner := Owner.mk new_id now name email [] [] in
  ∃ db',
    create_account name email new_id now db = (Return owner, db')
    ∧ owners db' = before ++ old :: after ++ [owner]
    ∧ find_account_by_email email db = (Return (Some old), db)
    ∧ find_account_by_email email db' = (Return (Some old), db').
Proof.
  intros Hid Hdb Hb Hx owner.
  assert (Hsave : replace_owner_by_id owner (owners db) = owners db ++ [owner])
    by (apply replace_owner_by_id_fresh, Hid).
  exists (mk_Database (cages db) (owners db ++ [owner]) (snakes db)).
  split; [|split; [|split]].
  - unfold create_account, bind, save_owner, modify, ret. fold owner.
    rewrite Hsave. reflexivity.
  - simpl. rewrite Hdb, <- app_assoc. reflexivity.
  - apply (find_account_by_email_at email db before old after Hdb Hb Hx).
  - apply (find_account_by_email_at email _ before old (after ++ [owner])).
    + simpl. rewrite Hdb, <- app_assoc. reflexivity.
    + exact Hb.
    + exact Hx.
Qed.

Lemma create_account_same_email_witness :
  let owner := Owner.mk 101%N 5 "Eve" "ada@example.org" [] [] in
  ∃ db',
    create_account "Eve" "ada@example.org" 101%N 5 db_sample = (Return owner, db')
    ∧ owners db' = [] ++ owner_ada :: [] ++ [owner]
    ∧ find_account_by_email "ada@example.org" db_sample
      = (Return (Some owner_ada), db_sample)
    ∧ find_account_by_email "ada@example.org" db'
      = (Return (Some owner_ada), db').
Proof.
  apply (create_account_same_email "Eve" "ada@example.org" 101%N 5 db_sample
           [] owner_ada []).
  - repeat constructor. discriminate.
  - reflexivity.
  - constructor.
  - reflexivity.
Defined.

(** X15. [reload_account] yields no account when there is no active
    account, or when no stored account has the email of the active one;
    otherwise it yields the first stored account with that email, as it is
    stored. It changes nothing in the database, and yields the same again
    when called on what it yielded. *)
Theorem reload_account_settles active_account db :
  ∃ reloaded,
    reload_account active_account db = (Return reloaded, db)
    ∧ reload_account reloaded db = (Return reloaded, db)
    ∧ match active_account, reloaded with
      | None, None => True
      | None, Some _ => False
      | Some account, None =>
          Forall (λ o, Owner.email o ≠ Owner.email account) (owners db)
      | Some account, Some stored =>
          ∃ before after,
            owners db = before ++ stored :: after
            ∧ Forall (λ o, Owner.email o ≠ Owner.email account) before
            ∧ Owner.email stored = Owner.email account
      end.
Proof.
  destruct active_account as [account|]; simpl.
  - destruct (find_account_by_email_cases (Owner.email account) db)
      as [[Hnone Hfind] | (before & stored & after & Hdb & Hb & He & Hfind)].
    + exists None. split; [exact Hfind|]. split; [reflexivity | exact Hnone].
    + exists (Some stored). split; [exact Hfind|]. split.
      * simpl. rewrite He. exact Hfind.
      * exists before, after. repeat split; assumption.
  - exists None. repeat split.
Qed.

(** ** Cages and snakes of an account *)

Lemma id__in_true ids i : id__in ids i = true ↔ i ∈ ids.
Proof.
  unfold id__in. rewrite existsb_exists. split.
  - intros (j & Hj & He). apply N.eqb_eq in He. subst j.
    apply list_elem_of_In, Hj.
  - intros Hi. exists i. split; [apply list_elem_of_In, Hi | apply N.eqb_refl].
Qed.

Lemma find_cages_for_user_run account db :
  find_cages_for_user account db
  = (Return
       (List.filter (λ c, id__in (Owner.cage_ids account) (Cage.id c))
          (cages db)),
     db).
Proof. reflexivity. Qed.

(** X16. [find_cages_for_user] returns the stored cages whose id is among
    the [cage_ids] of the account: an id that no stored cage has is passed
    over, and where the stored ids are unique, an id listed twice gives
    the cage once. *)
Theorem find_cages_for_user_iff account db :
  ∃ result,
    find_cages_for_user account db = (Return result, db)
    ∧ (∀ c, c ∈ result ↔ c ∈ cages db ∧ Cage.id c ∈ Owner.cage_ids account)
    ∧ (NoDup (Cage.id <$> cages db) → NoDup (Cage.id <$> result)).
Proof.
  eexists. split; [apply find_cages_for_user_run|]. split.
  - intros c. rewrite list_elem_of_In, filter_In, <- list_elem_of_In.
    rewrite id__in_true. reflexivity.
  - apply filter_fmap_NoDup.
Qed.

(** X17. With the account of the active email stored, [register_cage]
    stores the new cage, without windows, after the stored cages, and adds
    its id to the [cage_ids] of the first stored account with that email;
    [reload_account] then yields that account, and [find_cages_for_user]
    on it returns the new cage. *)
Theorem register_cage_links active_account name allow_dangerous has_toys
    carpeted meters price new_id now db before account after :
  Forall (λ d, Cage.id d ≠ new_id) (cages db) →
  owners db = before ++ account :: after →
  Forall (λ o, Owner.email o ≠ Owner.email active_account) before →
  Owner.email account = Owner.email active_account →
  Forall (λ o, Owner.id o ≠ Owner.id account) before →
  let c :=
    Cage.mk new_id now name price meters carpeted has_toys allow_dangerous [] in
  let account' := set_cage_ids (Owner.cage_ids account ++ [new_id]) account in
  let db' :=
    mk_Database (cages db ++ [c]) (before ++ account' :: after) (snakes db) in
  register_cage active_account name allow_dangerous has_toys carpeted meters
    price new_id now db
  = (Return c, db')
  ∧ reload_account (Some active_account) db' = (Return (Some account'), db')
  ∧ ∃ result,
      find_cages_for_user account' db' = (Return result, db')
      ∧ c ∈ result.
Proof.
  intros Hfresh Hdb Hemail He Hid c account' db'.
  assert (Hsave : replace_by_id c (cages db) = cages db ++ [c])
    by (apply replace_by_id_fresh, Hfresh).
  assert (Hown : replace_owner_by_id account' (before ++ account :: after)
                 = before ++ account' :: after)
    by (apply replace_owner_by_id_split; [exact Hid | reflexivity]).
  split; [|split].
  - unfold register_cage, bind, save, modify. fold c. rewrite Hsave.
    rewrite (find_account_by_email_at (Owner.email active_account)
               (mk_Database (cages db ++ [c]) (owners db) (snakes db))
               before account after Hdb Hemail He).
    unfold save_owner, modify, ret. cbv beta iota. cbn [cages owners snakes].
    fold c. change (Cage.id c) with new_id. fold account'.
    rewrite Hdb, Hown. reflexivity.
  - simpl.
    apply (find_account_by_email_at (Owner.email active_account) db'
             before account' after); [reflexivity | exact Hemail | exact He].
  - eexists. split; [apply find_cages_for_user_run|].
    rewrite list_elem_of_In, filter_In, <- list_elem_of_In. split.
    + simpl. apply elem_of_app. right. apply elem_of_cons. left. reflexivity.
    + apply id__in_true. simpl.
      apply elem_of_app. right. apply elem_of_cons. left. reflexivity.
Qed.

Lemma register_cage_links_witness :
  let c := Cage.mk 5%N 9 "Yew" 8 3 false true true [] in
  let account' := set_cage_ids (Owner.cage_ids owner_ada ++ [5%N]) owner_ada in
  let db' :=
    mk_Database (cages db_sample ++ [c]) ([] ++ account' :: [])
      (snakes db_sample) in
  register_cage owner_ada "Yew" true true false 3 8 5%N 9 db_sample
  = (Return c, db')
  ∧ reload_account (Some owner_ada) db' = (Return (Some account'), db')
  ∧ ∃ result,
      find_cages_for_user account' db' = (Return result, db')
      ∧ c ∈ result.
Proof.
  apply (register_cage_links owner_ada "Yew" true true false 3 8 5%N 9
           db_sample [] owner_ada []).
  - repeat constructor; discriminate.
  - reflexivity.
  - constructor.
  - reflexivity.
  - constructor.
Defined.

(** X18. [register_cage] and [add_snake] save the new document before they
    look the account up: when no stored account has the email, they raise
    the AttributeError of the list read on [None], and the cage, or the
    snake, is stored all the same, in no account's list. *)
Theorem register_without_account active_account db :
  Forall (λ o, Owner.email o ≠ Owner.email active_account) (owners db) →
  (∀ name allow_dangerous has_toys carpeted meters price new_id now,
     Forall (λ d, Cage.id d ≠ new_id) (cages db) →
     register_cage active_account name allow_dangerous has_toys carpeted
       meters price new_id now db
     = (Raise (AttributeError "NoneType" "cage_ids"),
        mk_Database
          (cages db
           ++ [Cage.mk new_id now name price meters carpeted has_toys
                 allow_dangerous []])
          (owners db) (snakes db)))
  ∧ (∀ name length species is_venomous new_id now,
       Forall (λ d, Snake.id d ≠ new_id) (snakes db) →
       add_snake active_account name length species is_venomous new_id now db
       = (Raise (AttributeError "NoneType" "snake_ids"),
          mk_Database (cages db) (owners db)
            (snakes db
             ++ [Snake.mk new_id now species name length is_venomous]))).
Proof.
  intros Hnone. split.
  - intros name allow_dangerous has_toys carpeted meters price new_id now
      Hfresh.
    unfold register_cage, bind, save, modify.
    rewrite (replace_by_id_fresh
               (Cage.mk new_id now name price meters carpeted has_toys
                  allow_dangerous []) (cages db) Hfresh).
    rewrite find_account_by_email_none by exact Hnone. reflexivity.
  - intros name length species is_venomous new_id now Hfresh.
    unfold add_snake, bind, save_snake, modify.
    rewrite (replace_snake_by_id_fresh
               (Snake.mk new_id now species name length is_venomous)
               (snakes db) Hfresh).
    rewrite find_account_by_email_none by exact Hnone. reflexivity.
Qed.

Lemma register_without_account_witness :
  register_cage (Owner.mk 7%N 0 "Cy" "cy@example.org" [] [])
    "Yew" true true false 3 8 5%N 9 db_sample
  = (Raise (AttributeError "NoneType" "cage_ids"),
     mk_Database
       (cages db_sample ++ [Cage.mk 5%N 9 "Yew" 8 3 false true true []])
       (owners db_sample) (snakes db_sample)).
Proof.
  apply (register_without_account
           (Owner.mk 7%N 0 "Cy" "cy@example.org" [] []) db_sample).
  - repeat constructor. discriminate.
  - repeat constructor; discriminate.
Defined.

(** X19. With the account of the email stored, [add_snake] stores the new
    snake after the stored ones and adds its id to the [snake_ids] of the
    first stored account with that email; [get_snakes_for_user] on the id
    of that account then returns the snake. *)
Theorem add_snake_then_get active_account name length species is_venomous
    new_id now db before account after :
  Forall (λ d, Snake.id d ≠ new_id) (snakes db) →
  owners db = before ++ account :: after →
  Forall (λ o, Owner.email o ≠ Owner.email active_account) before →
  Owner.email account = Owner.email active_account →
  Forall (λ o, Owner.id o ≠ Owner.id account) before →
  let s := Snake.mk new_id now species name length is_venomous in
  let account' := set_snake_ids (Owner.snake_ids account ++ [new_id]) account in
  let db' :=
    mk_Database (cages db) (before ++ account' :: after) (snakes db ++ [s]) in
  add_snake active_account name length species is_venomous new_id now db
  = (Return s, db')
  ∧ ∃ result,
      get_snakes_for_user (Owner.id account) db' = (Return result, db')
      ∧ s ∈ result.
Proof.
  intros Hfresh Hdb Hemail He Hid s account' db'.
  assert (Hsave : replace_snake_by_id s (snakes db) = snakes db ++ [s])
    by (apply replace_snake_by_id_fresh, Hfresh).
  assert (Hown : replace_owner_by_id account' (before ++ account :: after)
                 = before ++ account' :: after)
    by (apply replace_owner_by_id_split; [exact Hid | reflexivity]).
  split.
  - unfold add_snake, bind, save_snake, modify. fold s. rewrite Hsave.
    rewrite (find_account_by_email_at (Owner.email active_account)
               (mk_Database (cages db) (owners db) (snakes db ++ [s]))
               before account after Hdb Hemail He).
    unfold save_owner, modify, ret. cbv beta iota. cbn [cages owners snakes].
    fold s. change (Snake.id s) with new_id. fold account'.
    rewrite Hdb, Hown. reflexivity.
  - unfold get_snakes_for_user, bind, gets. simpl.
    rewrite (head_filter_first _ before account' after).
    + eexists. split; [reflexivity|].
      rewrite list_elem_of_In, filter_In, <- list_elem_of_In. split.
      * apply elem_of_app. right. apply elem_of_cons. left. reflexivity.
      * apply id__in_true. simpl.
        apply elem_of_app. right. apply elem_of_cons. left. reflexivity.
    + apply owner_id_differs_eqb, Hid.
    + apply N.eqb_refl.
Qed.

Lemma add_snake_then_get_witness :
  let s := Snake.mk 203%N 9 "Boa constrictor" "Bo" 3 false in
  let account' := set_snake_ids (Owner.snake_ids owner_ada ++ [203%N]) owner_ada in
  let db' :=
    mk_Database (cages db_sample) ([] ++ account' :: [])
      (snakes db_sample ++ [s]) in
  add_snake owner_ada "Bo" 3 "Boa constrictor" false 203%N 9 db_sample
  = (Return s, db')
  ∧ ∃ result,
      get_snakes_for_user (Owner.id owner_ada) db' = (Return result, db')
      ∧ s ∈ result.
Proof.
  apply (add_snake_then_get owner_ada "Bo" 3 "Boa constrictor" false 203%N 9
           db_sample [] owner_ada []).
  - repeat constructor; discriminate.
  - reflexivity.
  - constructor.
  - reflexivity.
  - constructor.
Defined.

(** X20. The two listings raise on a missing account and change nothing:
    [get_snakes_for_user] on an id no stored account has raises the
    AttributeError of [snake_ids] read on [None]; [get_bookings_for_user]
    on an email no stored account has raises that of [id]. *)
Theorem listings_without_account db :
  (∀ user_id,
     Forall (λ o, Owner.id o ≠ user_id) (owners db) →
     get_snakes_for_user user_id db
     = (Raise (AttributeError "NoneType" "snake_ids"), db))
  ∧ (∀ email,
       Forall (λ o, Owner.email o ≠ email) (owners db) →
       get_bookings_for_user email db
       = (Raise (AttributeError "NoneType" "id"), db)).
Proof.
  split.
  - intros user_id Hnone. unfold get_snakes_for_user, bind, gets.
    rewrite (filter_none _ _ (owner_id_differs_eqb _ _ Hnone)). reflexivity.
  - intros email Hnone. unfold get_bookings_for_user, bind.
    rewrite find_account_by_email_none by exact Hnone. reflexivity.
Qed.

Lemma listings_without_account_witness :
  get_bookings_for_user "cy@example.org" db_sample
  = (Raise (AttributeError "NoneType" "id"), db_sample).
Proof.
  apply (listings_without_account db_sample).
  repeat constructor. discriminate.
Defined.

(** ** Bookings of a guest *)

Lemma guest_owner_id_test (b : Booking) (i : ObjectId) :
  match Booking.guest_owner_id b with
  | Some g => N.eqb g i
  | None => false
  end = true
  ↔ Booking.guest_owner_id b = Some i.
Proof.
  destruct (Booking.guest_owner_id b) as [g|].
  - rewrite N.eqb_eq. split; [intros ->; reflexivity | intros [= ->]; reflexivity].
  - split; discriminate.
Qed.

Lemma get_bookings_for_user_run email db account :
  fst (find_account_by_email email db) = Return (Some account) →
  ∃ result,
    get_bookings_for_user email db = (Return result, db)
    ∧ ∀ x,
        x ∈ result ↔
        ∃ c, c ∈ cages db
             ∧ BookingOfCage.cage x = only_bookings_name c
             ∧ BookingOfCage.booking x ∈ Cage.bookings c
             ∧ Booking.guest_owner_id (BookingOfCage.booking x)
               = Some (Owner.id account).
Proof.
  intros Hfind.
  destruct (find_account_by_email_cases email db)
    as [[_ Hnone] | (before & a & after & _ & _ & _ & Hsome)].
  { rewrite Hnone in Hfind. discriminate Hfind. }
  rewrite Hsome in Hfind. injection Hfind as ->.
  eexists. split.
  - unfold get_bookings_for_user, bind. rewrite Hsome.
    unfold QuerySet.iterate, QuerySet.filter, QuerySet.objects, gets, ret.
    reflexivity.
  - intros x. rewrite list_elem_of_In, in_flat_map. split.
    + intros (c & Hc & Hx). apply filter_In in Hc as [Hc _].
      apply in_map_iff in Hx as (b & <- & Hb).
      apply filter_In in Hb as [Hb Hg]. simpl in Hb.
      exists c. split; [apply list_elem_of_In, Hc|]. split; [reflexivity|].
      split; [apply list_elem_of_In, Hb|].
      apply guest_owner_id_test, Hg.
    + intros (c & Hc & Hcage & Hb & Hg). exists c. split.
      * apply filter_In. split; [apply list_elem_of_In, Hc|].
        unfold bookings__guest_owner_id. apply existsb_exists.
        exists (BookingOfCage.booking x).
        split; [apply list_elem_of_In, Hb | apply guest_owner_id_test, Hg].
      * apply in_map_iff. exists (BookingOfCage.booking x). split.
        -- destruct x as [b cg]. simpl in *. rewrite Hcage. reflexivity.
        -- apply filter_In. simpl.
           split; [apply list_elem_of_In, Hb | apply guest_owner_id_test, Hg].
Qed.

(** X21. For an email that a stored account has, [get_bookings_for_user]
    returns exactly the windows of the stored cages whose [guest_owner_id]
    is the id of the first stored account with that email, each with the
    cage that holds it attached (id, name and windows), and changes
    nothing. Where guest owner, guest snake and booking time are set
    together in every stored window, each window it returns has a guest
    snake. *)
Theorem get_bookings_for_user_iff email db before account after :
  owners db = before ++ account :: after →
  Forall (λ o, Owner.email o ≠ email) before →
  Owner.email account = email →
  ∃ result,
    get_bookings_for_user email db = (Return result, db)
    ∧ (∀ x,
         x ∈ result ↔
         ∃ c, c ∈ cages db
              ∧ BookingOfCage.cage x
                = CageOnly.mk (Cage.id c) (Cage.name c) (Cage.bookings c)
              ∧ BookingOfCage.booking x ∈ Cage.bookings c
              ∧ Booking.guest_owner_id (BookingOfCage.booking x)
                = Some (Owner.id account))
    ∧ (database_consistent db →
       ∀ x, x ∈ result →
            is_Some (Booking.guest_snake_id (BookingOfCage.booking x))).
Proof.
  intros Hdb Hb He.
  assert (Hfind : fst (find_account_by_email email db) = Return (Some account)).
  { rewrite (find_account_by_email_at email db before account after Hdb Hb He).
    reflexivity. }
  destruct (get_bookings_for_user_run email db account Hfind)
    as (result & Hrun & Hiff).
  exists result. split; [exact Hrun|]. split; [exact Hiff|].
  intros Hcons x Hx. apply Hiff in Hx as (c & Hc & _ & Hin & Hg).
  unfold database_consistent in Hcons. rewrite Forall_forall in Hcons.
  specialize (Hcons c Hc). rewrite Forall_forall in Hcons.
  destruct (Hcons _ Hin) as [Hown _]. apply Hown. rewrite Hg.
  eexists; reflexivity.
Qed.

Lemma get_bookings_for_user_iff_witness :
  ∃ result,
    get_bookings_for_user "ada@example.org" db_booked
    = (Return result, db_booked)
    ∧ (∀ x,
         x ∈ result ↔
         ∃ c, c ∈ cages db_booked
              ∧ BookingOfCage.cage x
                = CageOnly.mk (Cage.id c) (Cage.name c) (Cage.bookings c)
              ∧ BookingOfCage.booking x ∈ Cage.bookings c
              ∧ Booking.guest_owner_id (BookingOfCage.booking x)
                = Some (Owner.id owner_ada))
    ∧ (database_consistent db_booked →
       ∀ x, x ∈ result →
            is_Some (Booking.guest_snake_id (BookingOfCage.booking x))).
Proof.
  apply (get_bookings_for_user_iff "ada@example.org" db_booked
           [] owner_ada []).
  - reflexivity.
  - constructor.
  - reflexivity.
Defined.

(** On [db_booked] the listing holds the one booked window, with its cage. *)
Example get_bookings_for_user_sample :
  get_bookings_for_user "ada@example.org" db_booked
  = (Return
       [BookingOfCage.mk
          (Booking.mk (Some 100%N) (Some 200%N) (Some 50) (day 2) (day 5)
             None 0)
          (CageOnly.mk 6%N "Let" (Cage.bookings cage_let))],
     db_booked).
Proof. vm_compute. reflexivity. Qed.

(** X22. A stay booked shows in the guest's bookings: after a
    [book_cage] that returns, [get_bookings_for_user] on the email that
    finds the booking account returns the booked window, with the guest
    owner, the guest snake, the requested dates and the booking time, and
    with the cage as saved attached. *)
Theorem booked_stay_is_listed email account guest c checkin checkout now db :
  fst (find_account_by_email email db) = Return (Some account) →
  fst (book_cage account guest c checkin checkout now db) = Return () →
  let c' := fst (snd (book_cage account guest c checkin checkout now db)) in
  let db' := snd (snd (book_cage account guest c checkin checkout now db)) in
  ∃ result x,
    get_bookings_for_user email db' = (Return result, db')
    ∧ x ∈ result
    ∧ BookingOfCage.cage x = only_bookings_name c'
    ∧ Booking.guest_owner_id (BookingOfCage.booking x) = Some (Owner.id account)
    ∧ Booking.guest_snake_id (BookingOfCage.booking x) = Some (Snake.id guest)
    ∧ Booking.check_in_date (BookingOfCage.booking x) = checkin
    ∧ Booking.check_out_date (BookingOfCage.booking x) = checkout
    ∧ Booking.booked_date (BookingOfCage.booking x) = Some now.
Proof.
  intros Hfind.
  destruct (book_cage_cases account guest c checkin checkout now db)
    as [[_ ->] | (pre & b & post & Hbs & _ & _ & ->)]; simpl.
  - discriminate.
  - intros _.
    set (b1 := reserved account guest checkin checkout now b).
    set (c1 := set_bookings (pre ++ b1 :: post) c).
    assert (Hfind' : fst (find_account_by_email email (saved c1 db))
                     = Return (Some account)) by exact Hfind.
    destruct (get_bookings_for_user_run email (saved c1 db) account Hfind')
      as (result & Hrun & Hiff).
    exists result, (BookingOfCage.mk b1 (only_bookings_name c1)).
    split; [exact Hrun|]. split; [|repeat split].
    apply Hiff. exists c1. split; [apply replace_by_id_self|].
    split; [reflexivity|]. split; [|reflexivity].
    simpl. apply elem_of_app. right. apply elem_of_cons. left. reflexivity.
Qed.

Lemma booked_stay_is_listed_witness :
  let c' := fst (snd (book_cage owner_ada snake_slim cage_twin (day 2) (day 5)
                        77 db_sample)) in
  let db' := snd (snd (book_cage owner_ada snake_slim cage_twin (day 2) (day 5)
                         77 db_sample)) in
  ∃ result x,
    get_bookings_for_user "ada@example.org" db' = (Return result, db')
    ∧ x ∈ result
    ∧ BookingOfCage.cage x = only_bookings_name c'
    ∧ Booking.guest_owner_id (BookingOfCage.booking x) = Some (Owner.id owner_ada)
    ∧ Booking.guest_snake_id (BookingOfCage.booking x) = Some (Snake.id snake_slim)
    ∧ Booking.check_in_date (BookingOfCage.booking x) = day 2
    ∧ Booking.check_out_date (BookingOfCage.booking x) = day 5
    ∧ Booking.booked_date (BookingOfCage.booking x) = Some 77.
Proof.
  apply (booked_stay_is_listed "ada@example.org" owner_ada snake_slim
           cage_twin (day 2) (day 5) 77 db_sample).
  - reflexivity.
  - reflexivity.
Defined.

(** X23. A cage [find_cages_for_user] returns takes a window: for dates
    the interpreter can compute, [add_available_date] on it returns a cage
    of the same id whose last window is the new open one, from [start_date]
    to [start_date] plus [days] days. *)
Theorem owned_cage_takes_window account db result db1 c start_date days :
  find_cages_for_user account db = (Return result, db1) →
  c ∈ result →
  -999999999 <= days <= 999999999 →
  0 <= start_date + days * datetime.us_per_day
    < 3652059 * datetime.us_per_day →
  ∃ c' windows,
    fst (add_available_date c start_date days db) = Return c'
    ∧ Cage.id c' = Cage.id c
    ∧ Cage.bookings c'
      = windows
        ++ [Booking.mk None None None start_date
              (start_date + days * datetime.us_per_day) None 0].
Proof.
  intros Hrun Hin Hdays Hsum. rewrite find_cages_for_user_run in Hrun.
  injection Hrun as <- _.
  rewrite list_elem_of_In, filter_In in Hin. destruct Hin as [Hc _].
  rewrite (add_available_date_in_range c start_date days db Hdays Hsum).
  destruct (head_filter_cases (QuerySet.id (Cage.id c)) (cages db))
    as [[Hall _] | (before & x & after & _ & _ & Hx & ->)].
  - exfalso. rewrite Forall_forall in Hall.
    specialize (Hall c (proj2 (list_elem_of_In _ _) Hc)).
    unfold QuerySet.id in Hall. rewrite N.eqb_refl in Hall. discriminate Hall.
  - eexists _, (Cage.bookings x). split; [reflexivity|]. split.
    + simpl. unfold QuerySet.id in Hx. apply N.eqb_eq, Hx.
    + reflexivity.
Qed.

Lemma owned_cage_takes_window_witness :
  ∃ c' windows,
    fst (add_available_date cage_elm (day 30) 7 db_sample) = Return c'
    ∧ Cage.id c' = Cage.id cage_elm
    ∧ Cage.bookings c'
      = windows
        ++ [Booking.mk None None None (day 30)
              (day 30 + 7 * datetime.us_per_day) None 0].
Proof.
  apply (owned_cage_takes_window
           (Owner.mk 102%N 0 "Dan" "dan@example.org" [] [2%N; 8%N])
           db_sample [cage_elm] db_sample).
  - reflexivity.
  - apply list_elem_of_In. left. reflexivity.
  - lia.
  - vm_compute. split; [discriminate | reflexivity].
Defined.
